(** * CCS811 gas-sensor driver: register codec and transport layer

    A shallow embedding of [src/CCS811_driver.cpp] and [src/CCS811_driver.h],
    and the properties of the driver proved on it.

    Conventions of the embedding:
    - [uint8_t] is [Byte.byte]; wider integers are [Z] with the wrap-around
      written out;
    - the host is little-endian, as the driver's use of [swap_endianess]
      between host and wire order assumes: a 16-bit member of a union shares
      its storage with [raw[0]] (low byte) and [raw[1]] (high byte);
    - [float] is IEEE-754 binary32 with round-to-nearest-even;
    - the width of a data pointer is a parameter, [sizeof_ptr];
    - what a read of program memory returns is a parameter,
      [pgm_read_byte]: [memcpy_P] reads its source through it, and only on
      a target with one address space does that give the bytes of a
      constant that is not declared [PROGMEM];
    - undefined behaviour of the C++ source (an access outside a buffer, a
      float-to-integer conversion whose value does not fit) is [None];
    - an uninitialised local is an explicit argument that holds its
      indeterminate content;
    - the [Wire] library and the device behind the bus are outside the
      repository: [Wire] is modelled by its documented behaviour (transmit
      buffer, receive buffer, status of a transmission), without the
      capacity limit of its buffers, and the device is an instance of the
      class [I2CBus];
    - calls of [Log.trace] have no effect on the driver and are left out;
      [delay] is recorded in the history of the bus. *)

From Stdlib Require Import ZArith Lia Bool.
From Stdlib Require Strings.Byte.
From Stdlib Require Floats.SpecFloat.
From stdpp Require Import base option list gmap.

Local Open Scope Z_scope.

(** ** Machine integers *)

Abbreviation uint8_t := Byte.byte.

Definition byte_to_Z (b : uint8_t) : Z := Z.of_N (Byte.to_N b).

Definition Z_to_byte (z : Z) : uint8_t :=
  match Byte.of_N (Z.to_N (z mod 256)) with
  | Some b => b
  | None => Byte.x00
  end.

(** Conversion to [uint16_t]. *)
Definition to_uint16 (z : Z) : Z := z mod 65536.

(** Conversion of a 16-bit pattern to [int16_t]. *)
Definition to_int16 (z : Z) : Z :=
  let u := z mod 65536 in if u <? 32768 then u else u - 65536.

(** A 16-bit member overlaid on a two-byte [raw] array, little-endian host. *)
Definition u16_of_raw (b0 b1 : uint8_t) : Z := byte_to_Z b0 + 256 * byte_to_Z b1.

Definition raw_of_u16 (v : Z) : list uint8_t :=
  [Z_to_byte (v mod 256); Z_to_byte (v / 256 mod 256)].

(** ** Byte-order utility *)

Module Endian.

(** One iteration of the loop body of [swap_endianess]. *)
Definition swap_step (size i : nat) (buffer : list uint8_t) : option (list uint8_t) :=
  temp ← buffer !! i;
  other ← buffer !! (size - 1 - i)%nat;
  Some (<[(size - 1 - i)%nat := temp]> (<[i := other]> buffer)).

(** [for (size_t i = ...; i < size / 2; i++)], with [todo = size / 2 - i]
    iterations left. *)
Fixpoint swap_loop (size todo i : nat) (buffer : list uint8_t) : option (list uint8_t) :=
  match todo with
  | O => Some buffer
  | S todo' =>
      buffer' ← swap_step size i buffer;
      swap_loop size todo' (S i) buffer'
  end.

Definition swap_endianess (buffer : list uint8_t) (size : nat) : option (list uint8_t) :=
  swap_loop size (size / 2)%nat 0%nat buffer.

(** The same reversal applied through a pointer [buffer + off]. *)
Definition swap_endianess_at (off : nat) (buffer : list uint8_t) (size : nat)
  : option (list uint8_t) :=
  tail' ← swap_endianess (drop off buffer) size;
  Some (take off buffer ++ tail').

End Endian.


(** ** Binary32 arithmetic of [float] *)

Module F32.
Import Floats.SpecFloat.

Definition prec : Z := 24.
Definition emax : Z := 128.

Definition float := spec_float.

(** Conversion of an [int] constant to [float]. *)
Definition of_int (n : Z) : float := binary_normalize prec emax n 0 false.

Definition sub (x y : float) : float := SFsub prec emax x y.
Definition mul (x y : float) : float := SFmul prec emax x y.

(** Float-to-integer conversion discards the fractional part. *)
Definition trunc (x : float) : option Z :=
  match x with
  | S754_zero _ => Some 0
  | S754_finite s m e => Some (cond_Zopp s (Z.shiftl (Z.pos m) e))
  | S754_infinity _ | S754_nan => None
  end.

(** [(uint16_t) x]: undefined when the truncated value is not a [uint16_t]. *)
Definition cast_uint16 (x : float) : option Z :=
  z ← trunc x;
  if (0 <=? z) && (z <? 65536) then Some z else None.

(** Nearest integer, halves away from zero: the function [round] of C.  The
    driver does not call it; it is here to compare the conversion above
    with. *)
Definition round (x : float) : option Z :=
  match x with
  | S754_zero _ => Some 0
  | S754_finite s m e =>
      Some (cond_Zopp s (Z.shiftl (2 * Z.pos m + Z.shiftl 1 (- e)) (e - 1)))
  | S754_infinity _ | S754_nan => None
  end.

(** 50.00146484375 = 102403 / 2048, a binary32 value. *)
Definition humidity_50_00146 : float := S754_finite false 13107584 (-18).

End F32.

(** ** Registers and constants ([CCS811_driver.h]) *)

Definition CCS811_HARDWARE_ID : uint8_t := Byte.x81.
Definition CCS811_DEFAULT_I2C_ADDRESS : uint8_t := Byte.x5a.

Definition CCS811_APPLICATION_ERASE_SEQUENCE : list uint8_t :=
  [Byte.xe7; Byte.xa7; Byte.xe6; Byte.x09].

Definition CCS811_RESET_SEQUENCE : list uint8_t :=
  [Byte.x11; Byte.xe5; Byte.x72; Byte.x8a].

Inductive ccs811_reg_t :=
  | STATUS | MEAS_MODE | ALG_RESULT_DATA | RAW_DATA | ENV_DATA | THRESHOLDS
  | BASELINE | HW_ID | HW_VERSION | FW_BOOT_VERSION | FW_APP_VERSION
  | INTERNAL_STATE | ERROR_ID | APP_ERASE | APP_DATA | APP_VERIFY | APP_START
  | SW_RESET.

Definition reg_addr (r : ccs811_reg_t) : uint8_t :=
  match r with
  | STATUS => Byte.x00
  | MEAS_MODE => Byte.x01
  | ALG_RESULT_DATA => Byte.x02
  | RAW_DATA => Byte.x03
  | ENV_DATA => Byte.x05
  | THRESHOLDS => Byte.x10
  | BASELINE => Byte.x11
  | HW_ID => Byte.x20
  | HW_VERSION => Byte.x21
  | FW_BOOT_VERSION => Byte.x23
  | FW_APP_VERSION => Byte.x24
  | INTERNAL_STATE => Byte.xa0
  | ERROR_ID => Byte.xe0
  | APP_ERASE => Byte.xf1
  | APP_DATA => Byte.xf2
  | APP_VERIFY => Byte.xf3
  | APP_START => Byte.xf4
  | SW_RESET => Byte.xff
  end.

(** Every register type of the header is a union over a [raw] byte array;
    a value of such a type is its [raw] bytes.  The typed members are views
    of those bytes. *)

(** [int16_t total] of [ccs811_eCO2_data_t] and [ccs811_eTVOC_data_t]. *)
Definition total (data : list uint8_t) : option Z :=
  match data with
  | [b0; b1] => Some (to_int16 (u16_of_raw b0 b1))
  | _ => None
  end.

(** [uint16_t low_limit] and [high_limit] of [ccs811_co2_thresholds_t]. *)
Definition low_limit (thresholds : list uint8_t) : option Z :=
  match thresholds with
  | [b0; b1; _; _] => Some (u16_of_raw b0 b1)
  | _ => None
  end.

Definition high_limit (thresholds : list uint8_t) : option Z :=
  match thresholds with
  | [_; _; b2; b3] => Some (u16_of_raw b2 b3)
  | _ => None
  end.

(** ** The two-wire bus *)

(** What the bus and the device behind it answer: the status code of a
    transmission (0 when acknowledged) and the bytes delivered to a
    request. *)
Class I2CBus (Dev : Type) := {
  bus_write : uint8_t → list uint8_t → Dev → Z * Dev;
  bus_read : uint8_t → nat → Dev → list uint8_t * Dev
}.

Inductive Event :=
  | EvWrite (address : uint8_t) (payload : list uint8_t) (status : Z)
  | EvRequest (address : uint8_t) (quantity : nat) (delivered : list uint8_t)
  | EvDelay (ms : Z).

(** The [Wire] object: the transmit buffer under construction and the
    receive buffer of the last request. *)
Record TwoWire := {
  txAddress : uint8_t;
  txBuffer : list uint8_t;
  rxBuffer : list uint8_t
}.

(** The driver object ([_device_address]), the [Wire] object, the device on
    the bus and the history of bus transactions and delays. *)
Record World (Dev : Type) := {
  _device_address : uint8_t;
  Wire : TwoWire;
  device : Dev;
  trace : list Event
}.
Arguments _device_address {Dev} _.
Arguments Wire {Dev} _.
Arguments device {Dev} _.
Arguments trace {Dev} _.

(** State and undefined behaviour. *)
Definition M (Dev A : Type) : Type := World Dev → option (A * World Dev).

#[global] Instance M_ret {Dev} : MRet (M Dev) := λ A x w, Some (x, w).
#[global] Instance M_bind {Dev} : MBind (M Dev) := λ A B f m w,
  match m w with
  | Some (x, w') => f x w'
  | None => None
  end.

Definition lift {Dev A} (o : option A) : M Dev A :=
  λ w, match o with Some x => Some (x, w) | None => None end.

(** ** The [Wire] interface, as the driver uses it *)

Section Driver.
Context {Dev : Type} `{I2CBus Dev}.

(** Width in bytes of a data pointer on the target, [sizeof(uint8_t* )]. *)
Variable sizeof_ptr : nat.

(** [pgm_read_byte src i]: the byte a read of program memory gives at the
    address of byte [i] of the object [src].  The two sequences of the header
    are not declared [PROGMEM]: on a target with one address space the read
    gives their bytes, on a target with a separate program memory it gives
    what that memory holds at the same address. *)
Variable pgm_read_byte : list uint8_t → nat → uint8_t.

(** [memcpy_P(dest, src, n)] for a local [dest] of [n] bytes: every byte of
    the local is read from program memory. *)
Definition memcpy_P (src : list uint8_t) (n : nat) : list uint8_t :=
  pgm_read_byte src <$> seq 0 n.

Definition get_device_address : M Dev uint8_t :=
  λ w, Some (_device_address w, w).

Definition set_device_address (a : uint8_t) : M Dev unit :=
  λ w, Some (tt, {| _device_address := a; Wire := Wire w;
                    device := device w; trace := trace w |}).

Definition Wire_beginTransmission (address : uint8_t) : M Dev unit :=
  λ w, Some (tt, {| _device_address := _device_address w;
                    Wire := {| txAddress := address; txBuffer := [];
                               rxBuffer := rxBuffer (Wire w) |};
                    device := device w; trace := trace w |}).

Definition Wire_write (b : uint8_t) : M Dev unit :=
  λ w, Some (tt, {| _device_address := _device_address w;
                    Wire := {| txAddress := txAddress (Wire w);
                               txBuffer := txBuffer (Wire w) ++ [b];
                               rxBuffer := rxBuffer (Wire w) |};
                    device := device w; trace := trace w |}).

(** Sends the buffered bytes; the result is the status of the bus. *)
Definition Wire_endTransmission : M Dev Z :=
  λ w, let a := txAddress (Wire w) in
       let payload := txBuffer (Wire w) in
       let '(status, d) := bus_write a payload (device w) in
       Some (status, {| _device_address := _device_address w;
                        Wire := {| txAddress := a; txBuffer := [];
                                   rxBuffer := rxBuffer (Wire w) |};
                        device := d;
                        trace := trace w ++ [EvWrite a payload status] |}).

(** Asks the device for [quantity] bytes; at most that many are kept. *)
Definition Wire_requestFrom (address : uint8_t) (quantity : nat) : M Dev nat :=
  λ w, let '(bytes, d) := bus_read address quantity (device w) in
       let delivered := take quantity bytes in
       Some (length delivered,
             {| _device_address := _device_address w;
                Wire := {| txAddress := txAddress (Wire w);
                           txBuffer := txBuffer (Wire w);
                           rxBuffer := delivered |};
                device := d;
                trace := trace w ++ [EvRequest address quantity delivered] |}).

Definition Wire_available : M Dev nat :=
  λ w, Some (length (rxBuffer (Wire w)), w).

(** The next received byte, or -1 when there is none. *)
Definition Wire_read : M Dev Z :=
  λ w, match rxBuffer (Wire w) with
       | [] => Some (-1, w)
       | b :: rest =>
           Some (byte_to_Z b,
                 {| _device_address := _device_address w;
                    Wire := {| txAddress := txAddress (Wire w);
                               txBuffer := txBuffer (Wire w);
                               rxBuffer := rest |};
                    device := device w; trace := trace w |})
       end.

Definition delay (ms : Z) : M Dev unit :=
  λ w, Some (tt, {| _device_address := _device_address w; Wire := Wire w;
                    device := device w; trace := trace w ++ [EvDelay ms] |}).

(** ** Raw register access ([CCS811::write] and [CCS811::read], private) *)

(** [for (size_t i = ...; i < length; i++) Wire.write(input[i])], with
    [todo = length - i]. *)
Fixpoint write_loop (todo i : nat) (input : list uint8_t) : M Dev unit :=
  match todo with
  | O => mret tt
  | S todo' =>
      b ← lift (input !! i);
      Wire_write b;;
      write_loop todo' (S i) input
  end.

Definition write_bytes (input : list uint8_t) (address : ccs811_reg_t) (length : nat)
  : M Dev bool :=
  device_address ← get_device_address;
  Wire_beginTransmission device_address;;
  Wire_write (reg_addr address);;
  write_loop length 0%nat input;;
  status ← Wire_endTransmission;
  mret (if status =? 0 then true else false).

(** [output[i] = c]: a store outside the buffer is undefined. *)
Definition store (output : list uint8_t) (i : nat) (c : uint8_t) : option (list uint8_t) :=
  if decide (i < length output)%nat then Some (<[i := c]> output) else None.

(** [for (size_t i = ...; (i < length) and Wire.available(); i++)], with
    [todo = length - i]. *)
Fixpoint read_loop (todo i : nat) (output : list uint8_t) : M Dev (list uint8_t) :=
  match todo with
  | O => mret output
  | S todo' =>
      available ← Wire_available;
      if decide (available = 0%nat) then mret output
      else
        c ← Wire_read;
        output' ← lift (store output i (Z_to_byte c));
        read_loop todo' (S i) output'
  end.

(** The result is the success flag and the content of [output] afterwards. *)
Definition read_bytes (output : list uint8_t) (address : ccs811_reg_t) (length : nat)
  : M Dev (bool * list uint8_t) :=
  device_address ← get_device_address;
  Wire_beginTransmission device_address;;
  Wire_write (reg_addr address);;
  status ← Wire_endTransmission;
  if status =? 0 then
    Wire_requestFrom device_address length;;
    output' ← read_loop length 0%nat output;
    mret (true, output')
  else mret (false, output).

(** ** Typed register reads

    Each takes the object passed by reference and gives back the success
    flag with the object's bytes afterwards. *)

Import Endian.

Definition read_status (status : list uint8_t) := read_bytes status STATUS 1.

Definition read_measure_config (config : list uint8_t) := read_bytes config MEAS_MODE 1.

Definition read_co2_thresholds (thresholds : list uint8_t) : M Dev (bool * list uint8_t) :=
  '(success, thresholds) ← read_bytes thresholds THRESHOLDS 4;
  thresholds ← lift (swap_endianess_at 0 thresholds 2);
  thresholds ← lift (swap_endianess_at 2 thresholds 2);
  mret (success, thresholds).

Definition read_eCO2_data (data : list uint8_t) := read_bytes data ALG_RESULT_DATA 2.

(** [output] is the uninitialised local of type [ccs811_air_quality_data_t];
    [data = output.eTVOC_reading] copies its first two bytes. *)
Definition read_eTVOC_data (output : list uint8_t) : M Dev (bool * list uint8_t) :=
  '(success, output) ← read_bytes output ALG_RESULT_DATA 4;
  mret (success, take 2 output).

(** The two bit-fields of [ccs811_raw_data_t] share one 16-bit unit. *)
Definition read_raw_data (data : list uint8_t) := read_bytes data RAW_DATA 2.

Definition read_air_quality_data (data : list uint8_t) := read_bytes data ALG_RESULT_DATA 4.

Definition read_all_data (data : list uint8_t) := read_bytes data ALG_RESULT_DATA 8.

Definition read_baseline (baseline : list uint8_t) := read_bytes baseline BASELINE 2.

Definition read_hardware_id (id : list uint8_t) := read_bytes id HW_ID 1.

Definition read_hardware_version (version : list uint8_t) := read_bytes version HW_VERSION 1.

Definition read_firmware_boot_version (version : list uint8_t) :=
  read_bytes version FW_BOOT_VERSION 2.

Definition read_firmware_application_version (version : list uint8_t) :=
  read_bytes version FW_APP_VERSION 2.

Definition read_error (error : list uint8_t) := read_bytes error ERROR_ID 1.

(** ** Typed register writes *)

Definition write_measure_config (config : list uint8_t) := write_bytes config MEAS_MODE 1.

Definition write_environmental_data_t (data : list uint8_t) := write_bytes data ENV_DATA 4.

Definition write_co2_thresholds_t (thresholds : list uint8_t) : M Dev bool :=
  thresholds ← lift (swap_endianess_at 0 thresholds 2);
  thresholds ← lift (swap_endianess_at 2 thresholds 2);
  write_bytes thresholds THRESHOLDS 4.

Definition write_baseline (baseline : list uint8_t) := write_bytes baseline BASELINE 2.

Definition write_application_data (data : list uint8_t) := write_bytes data APP_DATA 9.

Definition write_application_verify (code : list uint8_t) := write_bytes code APP_VERIFY 1.

Definition write_application_start (code : list uint8_t) := write_bytes code APP_START 1.

(** The parameter has the array type [ccs811_application_erase_t]; as a
    function parameter it is a pointer, and [sizeof(sequence)] is the width
    of that pointer, converted to the [uint8_t] length. *)
Definition write_application_erase (sequence : list uint8_t) :=
  write_bytes sequence APP_ERASE (sizeof_ptr mod 256)%nat.

Definition write_reset (sequence : list uint8_t) := write_bytes sequence SW_RESET 4.

(** ** Start-up check *)

(** [while (not success and retries < 10)], with [todo = 10 - retries]. *)
Fixpoint comms_check_loop (todo : nat) (success : bool) (id : list uint8_t)
  : M Dev (list uint8_t) :=
  match todo with
  | O => mret id
  | S todo' =>
      if success then mret id
      else
        '(success', id') ← read_hardware_id id;
        delay 10;;
        comms_check_loop todo' success' id'
  end.

(** [id] is the uninitialised local of type [ccs811_hardware_id_t]. *)
Definition comms_check (id : list uint8_t) : M Dev bool :=
  '(success, id) ← read_hardware_id id;
  id ← comms_check_loop 10 success id;
  raw ← lift (id !! 0%nat);
  mret (Byte.eqb raw CCS811_HARDWARE_ID).

Definition begin (device_address : uint8_t) (id : list uint8_t) : M Dev bool :=
  set_device_address device_address;;
  comms_check id.

(** ** Convenience operations *)

Definition write_environmental_data (temperature humidity : F32.float) : M Dev bool :=
  temperature_total ←
    lift (F32.cast_uint16 (F32.mul (F32.sub temperature (F32.of_int 25)) (F32.of_int 512)));
  humidity_total ← lift (F32.cast_uint16 (F32.mul humidity (F32.of_int 512)));
  let data := raw_of_u16 humidity_total ++ raw_of_u16 temperature_total in
  data ← lift (swap_endianess_at 2 data 2);
  data ← lift (swap_endianess_at 0 data 2);
  write_environmental_data_t data.

Definition write_co2_thresholds (low_threshold high_threshold : Z) : M Dev bool :=
  let thresholds := raw_of_u16 low_threshold ++ raw_of_u16 high_threshold in
  write_co2_thresholds_t thresholds.

(** [data] is the uninitialised local of type [ccs811_eCO2_data_t]; the
    success flag of the read is dropped. *)
Definition get_eCO2 (data : list uint8_t) : M Dev Z :=
  '(_, data) ← read_eCO2_data data;
  v ← lift (total data);
  mret (to_uint16 v).

(** [output] is the uninitialised local of [read(ccs811_eTVOC_data_t&)]. *)
Definition get_eTVOC (output : list uint8_t) : M Dev Z :=
  '(_, data) ← read_eTVOC_data output;
  v ← lift (total data);
  mret (to_uint16 v).

Definition reset : M Dev bool :=
  let sequence := memcpy_P CCS811_RESET_SEQUENCE 4 in
  write_reset sequence.

Definition start_application_erase : M Dev bool :=
  let sequence := memcpy_P CCS811_APPLICATION_ERASE_SEQUENCE 4 in
  write_application_erase sequence.

(** [code] is the uninitialised local. *)
Definition start_application_verify (code : list uint8_t) : M Dev bool :=
  write_application_verify code.

Definition start_application_mode (code : list uint8_t) : M Dev bool :=
  write_application_start code.

(** ** The public interface of [class CCS811] *)

Inductive TypedRead :=
  | RdStatus | RdMeasureConfig | RdCo2Thresholds | RdECO2Data | RdETVOCData
  | RdRawData | RdAirQualityData | RdAllData | RdBaseline | RdHardwareId
  | RdHardwareVersion | RdFirmwareBootVersion | RdFirmwareApplicationVersion
  | RdError.

Inductive TypedWrite :=
  | WrMeasureConfig | WrEnvironmentalData | WrCo2Thresholds | WrBaseline
  | WrApplicationData | WrApplicationVerify | WrApplicationStart.

(** A call of a public member function with its arguments.  A [list uint8_t]
    argument is the object passed, or the indeterminate content of the
    uninitialised local the function works on. *)
Inductive Op :=
  | OpBegin (device_address : uint8_t) (id : list uint8_t)
  | OpCommsCheck (id : list uint8_t)
  | OpRead (k : TypedRead) (object : list uint8_t)
  | OpWrite (k : TypedWrite) (object : list uint8_t)
  | OpWriteEnvironmentalData (temperature humidity : F32.float)
  | OpWriteCo2Thresholds (low_threshold high_threshold : Z)
  | OpGetECO2 (data : list uint8_t)
  | OpGetETVOC (output : list uint8_t)
  | OpReset
  | OpStartApplicationErase
  | OpStartApplicationVerify (code : list uint8_t)
  | OpStartApplicationMode (code : list uint8_t).

(** What the caller gets back: a [bool], a [bool] with the object read, or
    a [uint16_t]. *)
Inductive Reply :=
  | RBool (success : bool)
  | RData (success : bool) (object : list uint8_t)
  | RScalar (value : Z).

Definition typed_read (k : TypedRead) (object : list uint8_t) : M Dev (bool * list uint8_t) :=
  match k with
  | RdStatus => read_status object
  | RdMeasureConfig => read_measure_config object
  | RdCo2Thresholds => read_co2_thresholds object
  | RdECO2Data => read_eCO2_data object
  | RdETVOCData => read_eTVOC_data object
  | RdRawData => read_raw_data object
  | RdAirQualityData => read_air_quality_data object
  | RdAllData => read_all_data object
  | RdBaseline => read_baseline object
  | RdHardwareId => read_hardware_id object
  | RdHardwareVersion => read_hardware_version object
  | RdFirmwareBootVersion => read_firmware_boot_version object
  | RdFirmwareApplicationVersion => read_firmware_application_version object
  | RdError => read_error object
  end.

Definition typed_write (k : TypedWrite) (object : list uint8_t) : M Dev bool :=
  match k with
  | WrMeasureConfig => write_measure_config object
  | WrEnvironmentalData => write_environmental_data_t object
  | WrCo2Thresholds => write_co2_thresholds_t object
  | WrBaseline => write_baseline object
  | WrApplicationData => write_application_data object
  | WrApplicationVerify => write_application_verify object
  | WrApplicationStart => write_application_start object
  end.

Definition run (op : Op) : M Dev Reply :=
  match op with
  | OpBegin a id => v ← begin a id; mret (RBool v)
  | OpCommsCheck id => v ← comms_check id; mret (RBool v)
  | OpRead k object => '(success, object') ← typed_read k object; mret (RData success object')
  | OpWrite k object => v ← typed_write k object; mret (RBool v)
  | OpWriteEnvironmentalData t h => v ← write_environmental_data t h; mret (RBool v)
  | OpWriteCo2Thresholds low high => v ← write_co2_thresholds low high; mret (RBool v)
  | OpGetECO2 data => v ← get_eCO2 data; mret (RScalar v)
  | OpGetETVOC output => v ← get_eTVOC output; mret (RScalar v)
  | OpReset => v ← reset; mret (RBool v)
  | OpStartApplicationErase => v ← start_application_erase; mret (RBool v)
  | OpStartApplicationVerify code => v ← start_application_verify code; mret (RBool v)
  | OpStartApplicationMode code => v ← start_application_mode code; mret (RBool v)
  end.

(** A sequence of calls, one after the other. *)
Fixpoint run_all (ops : list Op) : M Dev (list Reply) :=
  match ops with
  | [] => mret []
  | op :: ops' => r ← run op; rs ← run_all ops'; mret (r :: rs)
  end.

End Driver.

(** Program-memory reads on a target with one address space: the read gives
    the byte of the object itself. *)
Definition flat_read_byte (src : list uint8_t) (i : nat) : uint8_t :=
  default Byte.x00 (src !! i).

Definition flat_memory (pgm_read_byte : list uint8_t → nat → uint8_t) : Prop :=
  ∀ src i b, src !! i = Some b → pgm_read_byte src i = b.

(** The success indicator a reply carries, if it carries one. *)
Definition reply_success (r : Reply) : option bool :=
  match r with
  | RBool b | RData b _ => Some b
  | RScalar _ => None
  end.

Definition is_begin (op : Op) : bool :=
  match op with OpBegin _ _ => true | _ => false end.

(** The address a trace entry was sent to. *)
Definition event_address (e : Event) : option uint8_t :=
  match e with
  | EvWrite a _ _ | EvRequest a _ _ => Some a
  | EvDelay _ => None
  end.

Definition is_transmission (e : Event) : bool :=
  match e with EvWrite _ _ _ => true | _ => false end.

Definition is_delay (e : Event) : bool :=
  match e with EvDelay _ => true | _ => false end.

(** ** Simulated transports *)

(** A transport that plays a script: the status of each transmission and the
    bytes delivered to each request, in order.  Once a script is used up,
    transmissions are not acknowledged (status 2) and requests deliver
    nothing. *)
Record Script := {
  statuses : list Z;
  replies : list (list uint8_t)
}.

#[global] Instance Script_bus : I2CBus Script := {|
  bus_write _ _ d :=
    match statuses d with
    | [] => (2, d)
    | st :: rest => (st, {| statuses := rest; replies := replies d |})
    end;
  bus_read _ _ d :=
    match replies d with
    | [] => ([], d)
    | r :: rest => (r, {| statuses := statuses d; replies := rest |})
    end
|}.

(** A device that acknowledges everything, keeps the bytes last written to
    each register, and delivers them when that register is read. *)
Record RegisterFile := {
  pointer : uint8_t;
  cells : gmap N (list uint8_t)
}.

#[global] Instance RegisterFile_bus : I2CBus RegisterFile := {|
  bus_write _ payload d :=
    match payload with
    | [] => (0, d)
    | reg :: [] => (0, {| pointer := reg; cells := cells d |})
    | reg :: data =>
        (0, {| pointer := reg; cells := <[Byte.to_N reg := data]> (cells d) |})
    end;
  bus_read _ quantity d :=
    (take quantity (default [] (cells d !! Byte.to_N (pointer d))), d)
|}.

(** A device that acknowledges the transmissions sent to its own address
    and no other, and delivers nothing. *)
Record AddressedDevice := { own_address : uint8_t }.

#[global] Instance AddressedDevice_bus : I2CBus AddressedDevice := {|
  bus_write a _ d := (if Byte.eqb a (own_address d) then 0 else 2, d);
  bus_read _ _ d := ([], d)
|}.

Definition new_world {Dev} (a : uint8_t) (d : Dev) : World Dev :=
  {| _device_address := a;
     Wire := {| txAddress := Byte.x00; txBuffer := []; rxBuffer := [] |};
     device := d; trace := [] |}.

(** What an observer sees of a call: the value returned and the history of
    the bus. *)
Definition outcome {Dev A} (r : option (A * World Dev)) : option (A * list Event) :=
  match r with
  | Some (x, w) => Some (x, trace w)
  | None => None
  end.

(** ** Properties of a transport *)

(** No transmission is acknowledged. *)
Definition nacks {Dev} `{I2CBus Dev} (d : Dev) : Prop :=
  ∀ a payload, (bus_write a payload d).1 ≠ 0.

(** Transmissions are acknowledged, and a register read delivers exactly the
    bytes last written to the register. *)
Definition faithful {Dev} `{I2CBus Dev} (d : Dev) : Prop :=
  ∀ a reg data, data ≠ [] →
    let w1 := bus_write a (reg :: data) d in
    let w2 := bus_write a [reg] w1.2 in
    w1.1 = 0 ∧ w2.1 = 0 ∧ (bus_read a (length data) w2.2).1 = data.

(** ** Worlds after a bus transaction *)

Section Transactions.
Context {Dev : Type} `{I2CBus Dev}.

(** The world after [Wire.beginTransmission(_device_address)], the writes of
    [payload] and [Wire.endTransmission()], with the status obtained. *)
Definition after_transmission (w : World Dev) (payload : list uint8_t) : Z * World Dev :=
  let a := _device_address w in
  let '(status, d) := bus_write a payload (device w) in
  (status,
   {| _device_address := a;
      Wire := {| txAddress := a; txBuffer := []; rxBuffer := rxBuffer (Wire w) |};
      device := d;
      trace := trace w ++ [EvWrite a payload status] |}).

(** The world after [Wire.requestFrom(_device_address, quantity)] and the
    reads of every byte delivered, with those bytes. *)
Definition after_request (w : World Dev) (quantity : nat) : list uint8_t * World Dev :=
  let a := _device_address w in
  let '(bytes, d) := bus_read a quantity (device w) in
  let delivered := take quantity bytes in
  (delivered,
   {| _device_address := a;
      Wire := {| txAddress := txAddress (Wire w); txBuffer := txBuffer (Wire w);
                 rxBuffer := [] |};
      device := d;
      trace := trace w ++ [EvRequest a quantity delivered] |}).

End Transactions.

(** Every transaction among [events] is addressed to [a]. *)
Definition addressed_to (a : uint8_t) (events : list Event) : Prop :=
  Forall (λ e, ∀ b, event_address e = Some b → b = a) events.

(** A computation that, started with [a] stored, ends with [a] stored and
    has addressed every transaction it made to [a]. *)
Definition keeps_address {Dev A} (a : uint8_t) (m : M Dev A) : Prop :=
  ∀ w x w', _device_address w = a → m w = Some (x, w') →
    _device_address w' = a
    ∧ ∃ events, trace w' = trace w ++ events ∧ addressed_to a events.

(** A 16-bit value as two bytes, most significant first. *)
Definition big_endian16 (v : Z) : list uint8_t :=
  [Z_to_byte (v / 256 mod 256); Z_to_byte (v mod 256)].

(** The address stored in the driver object after a sequence of calls that
    starts with [a0] stored. *)
Fixpoint stored_address (ops : list Op) (a0 : uint8_t) : uint8_t :=
  match ops with
  | [] => a0
  | OpBegin a _ :: ops' => stored_address ops' a
  | _ :: ops' => stored_address ops' a0
  end.


(** ** The shape of the bus traffic of a call *)

(** A computation that leaves the world as it found it. *)
Definition silent {Dev A} (m : M Dev A) : Prop :=
  ∀ w x w', m w = Some (x, w') → w' = w.

(** A computation whose only bus traffic is one transmission. *)
Definition transmits_once {Dev A} (m : M Dev A) : Prop :=
  ∀ w x w', m w = Some (x, w') →
    ∃ payload status, trace w' = trace w ++ [EvWrite (_device_address w) payload status].

(** A computation whose bus traffic is one transmission and, placed after
    it and only when it was acknowledged, one request. *)
Definition reads_once {Dev A} (m : M Dev A) : Prop :=
  ∀ w x w', m w = Some (x, w') →
    ∃ payload status,
      (status ≠ 0
       ∧ trace w' = trace w ++ [EvWrite (_device_address w) payload status])
      ∨ (status = 0
         ∧ ∃ quantity delivered,
             trace w' = trace w ++
               [EvWrite (_device_address w) payload status;
                EvRequest (_device_address w) quantity delivered]).

(** The calls that write a register, and those that read one. *)
Definition is_write_call (op : Op) : bool :=
  match op with
  | OpWrite _ _ | OpWriteEnvironmentalData _ _ | OpWriteCo2Thresholds _ _
  | OpReset | OpStartApplicationErase | OpStartApplicationVerify _
  | OpStartApplicationMode _ => true
  | _ => false
  end.

Definition is_read_call (op : Op) : bool :=
  match op with
  | OpRead _ _ | OpGetECO2 _ | OpGetETVOC _ => true
  | _ => false
  end.

(** A script on which the first [length failures] transmissions fail with
    the given statuses and the next one is acknowledged. *)
Definition late_answer (failures : list Z) (answer : list uint8_t) : Script :=
  {| statuses := failures ++ [0]; replies := [answer] |}.

(** * Proofs *)

(** ** Bytes *)

Lemma Z_to_byte_to_Z (b : uint8_t) : Z_to_byte (byte_to_Z b) = b.
Proof. destruct b; reflexivity. Qed.

Lemma byte_to_Z_range (b : uint8_t) : 0 ≤ byte_to_Z b < 256.
Proof. destruct b; vm_compute; split; congruence. Qed.

Lemma byte_to_Z_to_byte (z : Z) : byte_to_Z (Z_to_byte z) = z mod 256.
Proof.
  unfold byte_to_Z, Z_to_byte.
  assert (Hr : 0 ≤ z mod 256 < 256) by (apply Z.mod_pos_bound; lia).
  destruct (Byte.of_N (Z.to_N (z mod 256))) as [b|] eqn:E.
  - apply Byte.to_of_N in E. rewrite E. lia.
  - apply Byte.of_N_None_iff in E. lia.
Qed.

Lemma u16_of_raw_of_u16 (v : Z) :
  0 ≤ v < 65536 →
  u16_of_raw (Z_to_byte (v mod 256)) (Z_to_byte (v / 256 mod 256)) = v.
Proof.
  intros Hv. unfold u16_of_raw. rewrite !byte_to_Z_to_byte.
  assert (Hq : 0 ≤ v / 256 < 256)
    by (split; [apply Z.div_pos; lia | apply Z.div_lt_upper_bound; lia]).
  rewrite Z.mod_mod by lia.
  rewrite !(Z.mod_small (v / 256) 256) by done.
  pose proof (Z.div_mod v 256). lia.
Qed.

(** ** The state monad *)

Ltac munfold := unfold mbind, M_bind, mret, M_ret, lift in *.

Section MonadFacts.
Context {Dev : Type}.

Lemma bind_Some {A B} (m : M Dev A) (f : A → M Dev B) w x w1 :
  m w = Some (x, w1) → (m ≫= f) w = f x w1.
Proof. intros E. munfold. by rewrite E. Qed.

Lemma bind_None {A B} (m : M Dev A) (f : A → M Dev B) w :
  m w = None → (m ≫= f) w = None.
Proof. intros E. munfold. by rewrite E. Qed.

Lemma bind_inv {A B} (m : M Dev A) (f : A → M Dev B) w y w2 :
  (m ≫= f) w = Some (y, w2) → ∃ x w1, m w = Some (x, w1) ∧ f x w1 = Some (y, w2).
Proof.
  munfold. destruct (m w) as [[x w1]|] eqn:E; [|done]. intros E'. by exists x, w1.
Qed.

Lemma lift_inv {A} (o : option A) (w : World Dev) x w1 :
  lift o w = Some (x, w1) → o = Some x ∧ w1 = w.
Proof. unfold lift. destruct o; [|done]. intros [= -> ->]. done. Qed.

End MonadFacts.
(** ** Byte-order utility: proofs *)

Module EndianFacts.
Import Endian.

Lemma half_bounds (size : nat) : (2 * (size / 2) ≤ size < 2 * (size / 2) + 2)%nat.
Proof.
  pose proof (Nat.div_mod_eq size 2). pose proof (Nat.mod_upper_bound size 2). lia.
Qed.

Lemma swap_step_defined size i (buffer : list uint8_t) :
  (i < size)%nat → (size ≤ length buffer)%nat →
  ∃ buffer', swap_step size i buffer = Some buffer'
    ∧ length buffer' = length buffer
    ∧ ∀ j, buffer' !! j =
        if decide (j = (size - 1 - i)%nat) then buffer !! i
        else if decide (j = i) then buffer !! (size - 1 - i)%nat
        else buffer !! j.
Proof.
  intros Hi Hn. unfold swap_step.
  destruct (lookup_lt_is_Some_2 buffer i) as [x Hx]; [lia|].
  destruct (lookup_lt_is_Some_2 buffer (size - 1 - i)%nat) as [y Hy]; [lia|].
  rewrite Hx, Hy. simpl. eexists. split; [reflexivity|]. split.
  - by rewrite !length_insert.
  - intros j. destruct (decide (j = (size - 1 - i)%nat)) as [->|Hne].
    + rewrite list_lookup_insert_eq; [done|]. rewrite length_insert. lia.
    + rewrite list_lookup_insert_ne by done.
      destruct (decide (j = i)) as [->|Hne'].
      * rewrite list_lookup_insert_eq; [done|lia].
      * by rewrite list_lookup_insert_ne.
Qed.

Lemma swap_loop_lookup size todo : ∀ i (buffer : list uint8_t),
  (i + todo = size / 2)%nat → (size ≤ length buffer)%nat →
  ∃ buffer', swap_loop size todo i buffer = Some buffer'
    ∧ length buffer' = length buffer
    ∧ ∀ j, buffer' !! j =
        if decide ((i ≤ j < i + todo)%nat ∨ (size - i - todo ≤ j < size - i)%nat)
        then buffer !! (size - 1 - j)%nat else buffer !! j.
Proof.
  pose proof (half_bounds size) as Hhalf.
  induction todo as [|todo IH]; intros i buffer Hsum Hlen; simpl.
  - exists buffer. split; [done|]. split; [done|]. intros j.
    case_decide; [lia|done].
  - destruct (swap_step_defined size i buffer) as (b1 & Hb1 & Hl1 & Hlk1); [lia|lia|].
    rewrite Hb1. simpl.
    destruct (IH (S i) b1) as (b2 & Hb2 & Hl2 & Hlk2); [lia|lia|].
    exists b2. split; [done|]. split; [congruence|]. intros j.
    rewrite Hlk2. repeat case_decide; rewrite ?Hlk1; repeat case_decide;
      try lia; try done; f_equal; lia.
Qed.

Lemma swap_endianess_lookup (buffer : list uint8_t) size :
  (size ≤ length buffer)%nat →
  ∃ buffer', swap_endianess buffer size = Some buffer'
    ∧ length buffer' = length buffer
    ∧ ∀ j, buffer' !! j =
        if decide (j < size)%nat then buffer !! (size - 1 - j)%nat else buffer !! j.
Proof.
  intros Hlen. unfold swap_endianess.
  destruct (swap_loop_lookup size (size / 2) 0 buffer) as (b & Hb & Hl & Hlk); [lia|done|].
  exists b. split; [done|]. split; [done|]. intros j. rewrite Hlk.
  pose proof (half_bounds size) as Hhalf.
  repeat case_decide; try done; try lia.
  f_equal. lia.
Qed.

(** [swap_endianess] is the reversal of the first [size] bytes. *)
Lemma swap_endianess_reverse (buffer : list uint8_t) size :
  (size ≤ length buffer)%nat →
  swap_endianess buffer size = Some (reverse (take size buffer) ++ drop size buffer).
Proof.
  intros Hlen.
  destruct (swap_endianess_lookup buffer size Hlen) as (b & Hb & Hl & Hlk).
  rewrite Hb. f_equal. apply list_eq. intros j. rewrite Hlk.
  case_decide as Hj.
  - rewrite lookup_app_l by (rewrite length_reverse, length_take; lia).
    rewrite reverse_lookup by (rewrite length_take; lia).
    rewrite length_take, lookup_take_lt by lia. f_equal. lia.
  - rewrite lookup_app_r by (rewrite length_reverse, length_take; lia).
    rewrite length_reverse, length_take, lookup_drop. f_equal. lia.
Qed.

End EndianFacts.

(** ** Raw register access *)

Section RawAccess.
Context {Dev : Type} `{I2CBus Dev}.

Lemma write_loop_eq todo : ∀ i input (w : World Dev),
  (i ≤ length input)%nat →
  write_loop todo i input w =
    if decide (i + todo ≤ length input)%nat then
      Some (tt, {| _device_address := _device_address w;
                   Wire := {| txAddress := txAddress (Wire w);
                              txBuffer := txBuffer (Wire w) ++ take todo (drop i input);
                              rxBuffer := rxBuffer (Wire w) |};
                   device := device w; trace := trace w |})
    else None.
Proof.
  induction todo as [|todo IH]; intros i input w Hi; simpl.
  - rewrite decide_True by lia. rewrite take_0, app_nil_r.
    by destruct w as [a [ta tb rb] d t].
  - destruct (input !! i) as [b|] eqn:Eb.
    + pose proof (lookup_lt_Some _ _ _ Eb) as Hlt.
      munfold. unfold Wire_write at 1. rewrite IH by (simpl; lia). simpl.
      rewrite (drop_S _ _ _ Eb). simpl. rewrite <- app_assoc. simpl.
      repeat case_decide; try lia; done.
    + apply lookup_ge_None in Eb. munfold. rewrite decide_False by lia. done.
Qed.

(** The transmission of a raw write: the register address, then the first
    [length] bytes of [input]. *)
Lemma write_bytes_eq (input : list uint8_t) address length (w : World Dev) :
  write_bytes input address length w =
    if decide (length ≤ List.length input)%nat then
      let '(status, w') := after_transmission w (reg_addr address :: take length input) in
      Some (if status =? 0 then true else false, w')
    else None.
Proof.
  unfold write_bytes. munfold. unfold get_device_address, Wire_beginTransmission.
  unfold Wire_write at 1. rewrite write_loop_eq by lia. simpl. rewrite drop_0.
  case_decide; [|done].
  unfold Wire_endTransmission, after_transmission. simpl.
  destruct (bus_write _ _ _) as [status d]. done.
Qed.

Lemma read_loop_eq todo : ∀ i output (w : World Dev),
  (i ≤ length output)%nat →
  read_loop todo i output w =
    let rx := rxBuffer (Wire w) in
    let k := (todo `min` length rx)%nat in
    if decide (i + k ≤ length output)%nat then
      Some (take i output ++ take k rx ++ drop (i + k) output,
            {| _device_address := _device_address w;
               Wire := {| txAddress := txAddress (Wire w);
                          txBuffer := txBuffer (Wire w);
                          rxBuffer := drop k rx |};
               device := device w; trace := trace w |})
    else None.
Proof.
  induction todo as [|todo IH]; intros i output w Hi; simpl.
  - rewrite decide_True by lia. rewrite Nat.add_0_r, take_drop.
    by destruct w as [a [ta tb rb] d t].
  - munfold. unfold Wire_available. destruct w as [a [ta tb rx] d t]. simpl.
    destruct rx as [|b rx]; simpl.
    + rewrite decide_True by lia. by rewrite Nat.add_0_r, take_drop.
    + unfold Wire_read. simpl. rewrite Z_to_byte_to_Z. unfold store.
      case_decide as Hlt.
      * rewrite IH by (rewrite length_insert; lia). simpl.
        rewrite length_insert.
        repeat case_decide; try lia; [|done].
        f_equal. f_equal.
        rewrite (take_S_r (<[i:=b]> output) i b) by (by apply list_lookup_insert_eq).
        rewrite take_insert_ge by lia. rewrite drop_insert_lt by lia.
        rewrite <- app_assoc. simpl. by rewrite Nat.add_succ_r.
      * rewrite decide_False by lia. done.
Qed.

(** The two phases of a raw read: the transmission of the register address
    and, when it is acknowledged, the request for [length] bytes, which
    overwrites as many bytes of [output] as the bus delivers. *)
Lemma read_bytes_eq (output : list uint8_t) address length (w : World Dev) :
  read_bytes output address length w =
    let '(status, w1) := after_transmission w [reg_addr address] in
    if status =? 0 then
      let '(delivered, w2) := after_request w1 length in
      if decide (List.length delivered ≤ List.length output)%nat then
        Some ((true, delivered ++ drop (List.length delivered) output), w2)
      else None
    else Some ((false, output), w1).
Proof.
  unfold read_bytes. munfold. unfold get_device_address, Wire_beginTransmission.
  unfold Wire_write, Wire_endTransmission, after_transmission. simpl.
  destruct (bus_write _ _ _) as [status d]. simpl.
  destruct (status =? 0); [|done].
  unfold Wire_requestFrom, after_request. simpl.
  destruct (bus_read _ _ _) as [bytes d2]. simpl.
  rewrite read_loop_eq by (simpl; lia). simpl.
  assert (Hk : (length `min` List.length (take length bytes) = List.length (take length bytes))%nat)
    by (rewrite length_take; lia).
  rewrite Hk.
  rewrite (take_ge (take length bytes)) by lia.
  rewrite (drop_ge (take length bytes)) by lia.
  case_decide; done.
Qed.

End RawAccess.

(** ** The byte-order reversal is an involution *)

(** C6: for every buffer and every length [n] within it, [swap_endianess]
    applied twice to the first [n] bytes gives the original buffer back, and
    for odd [n] one application leaves the middle byte, at index [n / 2],
    as it was. *)
Theorem swap_endianess_involution (buffer : list uint8_t) (n : nat) :
  (n ≤ length buffer)%nat →
  ∃ swapped,
    Endian.swap_endianess buffer n = Some swapped
    ∧ Endian.swap_endianess swapped n = Some buffer
    ∧ (Nat.odd n = true → swapped !! (n / 2)%nat = buffer !! (n / 2)%nat).
Proof.
  intros Hn.
  pose proof (EndianFacts.swap_endianess_reverse buffer n Hn) as Hfirst.
  destruct (EndianFacts.swap_endianess_lookup buffer n Hn) as (swapped & Hs & Hlen & Hlk).
  exists swapped. split; [done|]. split.
  - rewrite EndianFacts.swap_endianess_reverse by lia.
    rewrite Hs in Hfirst. injection Hfirst as ->. f_equal.
    assert (Hrev : length (reverse (take n buffer)) = n)
      by (rewrite length_reverse, length_take; lia).
    rewrite take_app_length', drop_app_length' by done.
    by rewrite reverse_involutive, take_drop.
  - intros Hodd. apply Nat.odd_spec in Hodd as [m Hm].
    pose proof (EndianFacts.half_bounds n).
    rewrite Hlk. rewrite decide_True by lia. f_equal. lia.
Qed.

Lemma swap_endianess_involution_witness :
  ∃ swapped,
    Endian.swap_endianess [Byte.x01; Byte.x02; Byte.x03; Byte.x04; Byte.x05] 3 = Some swapped
    ∧ Endian.swap_endianess swapped 3 = Some [Byte.x01; Byte.x02; Byte.x03; Byte.x04; Byte.x05]
    ∧ (Nat.odd 3 = true →
       swapped !! (3 / 2)%nat
       = [Byte.x01; Byte.x02; Byte.x03; Byte.x04; Byte.x05] !! (3 / 2)%nat).
Proof.
  apply (swap_endianess_involution [Byte.x01; Byte.x02; Byte.x03; Byte.x04; Byte.x05] 3).
  simpl. lia.
Defined.

(** ** Error paths of the raw read *)

Section RawRead.
Context {Dev : Type} `{I2CBus Dev}.

(** C8: when the transmission of the register address is not acknowledged,
    the raw read returns false and the output buffer is exactly what it
    was; no request is made on the bus. *)
Theorem read_bytes_address_phase_failure
    (output : list uint8_t) address length (w : World Dev) :
  (bus_write (_device_address w) [reg_addr address] (device w)).1 ≠ 0 →
  ∃ w',
    read_bytes output address length w = Some ((false, output), w')
    ∧ trace w' = trace w ++
        [EvWrite (_device_address w) [reg_addr address]
           (bus_write (_device_address w) [reg_addr address] (device w)).1].
Proof.
  intros Hnack. rewrite read_bytes_eq. unfold after_transmission.
  destruct (bus_write _ _ _) as [status d]. simpl in *.
  destruct (Z.eqb_spec status 0) as [->|_]; [done|].
  eexists. split; reflexivity.
Qed.

(** C9: when the transmission of the register address is acknowledged the
    raw read returns true, however many bytes the bus then delivers: the
    bytes delivered (at most [length]) overwrite a prefix of the output
    buffer and every byte after that prefix keeps its prior value. *)
Theorem read_bytes_short_delivery
    (output : list uint8_t) address length (w : World Dev) d1 bytes d2 :
  bus_write (_device_address w) [reg_addr address] (device w) = (0, d1) →
  bus_read (_device_address w) length d1 = (bytes, d2) →
  (length ≤ List.length output)%nat →
  let delivered := take length bytes in
  ∃ w',
    read_bytes output address length w
      = Some ((true, delivered ++ drop (List.length delivered) output), w')
    ∧ (List.length delivered = length `min` List.length bytes)%nat
    ∧ device w' = d2.
Proof.
  intros Hw Hr Hlen delivered. rewrite read_bytes_eq. unfold after_transmission.
  rewrite Hw. simpl. unfold after_request. simpl. rewrite Hr. simpl.
  assert (Hd : List.length (take length bytes) = (length `min` List.length bytes)%nat)
    by apply length_take.
  rewrite decide_True by lia.
  eexists. split; [reflexivity|]. split; done.
Qed.

End RawRead.

Lemma read_bytes_address_phase_failure_witness :
  ∃ w',
    read_bytes [Byte.xaa; Byte.xbb] ALG_RESULT_DATA 2
      (new_world CCS811_DEFAULT_I2C_ADDRESS {| statuses := [2]; replies := [] |})
      = Some ((false, [Byte.xaa; Byte.xbb]), w')
    ∧ trace w' = [] ++ [EvWrite CCS811_DEFAULT_I2C_ADDRESS [Byte.x02] 2].
Proof.
  assert (Hnack : (bus_write CCS811_DEFAULT_I2C_ADDRESS [reg_addr ALG_RESULT_DATA]
                     {| statuses := [2]; replies := [] |}).1 ≠ 0) by (simpl; lia).
  exact (read_bytes_address_phase_failure [Byte.xaa; Byte.xbb] ALG_RESULT_DATA 2
           (new_world CCS811_DEFAULT_I2C_ADDRESS {| statuses := [2]; replies := [] |})
           Hnack).
Defined.

Lemma read_bytes_short_delivery_witness :
  ∃ w',
    read_bytes [Byte.xaa; Byte.xbb; Byte.xcc; Byte.xdd] ALG_RESULT_DATA 4
      (new_world CCS811_DEFAULT_I2C_ADDRESS
         {| statuses := [0]; replies := [[Byte.x01; Byte.x2c]] |})
      = Some ((true, [Byte.x01; Byte.x2c; Byte.xcc; Byte.xdd]), w')
    ∧ (2 = 4 `min` 2)%nat
    ∧ device w' = {| statuses := []; replies := [] |}.
Proof.
  assert (Hlen : (4 ≤ length [Byte.xaa; Byte.xbb; Byte.xcc; Byte.xdd])%nat) by (simpl; lia).
  exact (read_bytes_short_delivery [Byte.xaa; Byte.xbb; Byte.xcc; Byte.xdd]
           ALG_RESULT_DATA 4
           (new_world CCS811_DEFAULT_I2C_ADDRESS
              {| statuses := [0]; replies := [[Byte.x01; Byte.x2c]] |})
           {| statuses := []; replies := [[Byte.x01; Byte.x2c]] |}
           [Byte.x01; Byte.x2c]
           {| statuses := []; replies := [] |}
           eq_refl eq_refl Hlen).
Defined.

(** ** Fixed command sequences *)

Lemma flat_read_byte_flat : flat_memory flat_read_byte.
Proof. intros src i b Hb. unfold flat_read_byte. by rewrite Hb. Qed.

(** With one address space, [memcpy_P] is a plain copy. *)
Lemma memcpy_P_flat pgm_read_byte (src : list uint8_t) (n : nat) :
  flat_memory pgm_read_byte → (n ≤ length src)%nat →
  memcpy_P pgm_read_byte src n = take n src.
Proof.
  intros Hflat Hn. unfold memcpy_P. apply list_eq. intros i.
  rewrite list_lookup_fmap.
  destruct (decide (i < n)%nat) as [Hi|Hi].
  - rewrite lookup_seq_lt by done. simpl. rewrite lookup_take_lt by done.
    destruct (lookup_lt_is_Some_2 src i) as [b Hb]; [lia|].
    rewrite Hb. f_equal. by apply Hflat.
  - rewrite lookup_seq_ge by lia. simpl. symmetry. apply lookup_ge_None.
    rewrite length_take. lia.
Qed.

Section Commands.
Context {Dev : Type} `{I2CBus Dev}.
Variable pgm_read_byte : list uint8_t → nat → uint8_t.

(** With one address space, [reset()] transmits the register address 0xFF
    followed by the four bytes of the reset sequence, and succeeds exactly
    when the transmission is acknowledged. *)
Lemma reset_sends_sequence (w : World Dev) :
  flat_memory pgm_read_byte →
  reset pgm_read_byte w =
    let '(status, w') :=
      after_transmission w [Byte.xff; Byte.x11; Byte.xe5; Byte.x72; Byte.x8a] in
    Some (if status =? 0 then true else false, w').
Proof.
  intros Hflat. unfold reset, write_reset.
  rewrite (memcpy_P_flat _ CCS811_RESET_SEQUENCE 4 Hflat) by (simpl; lia).
  by rewrite write_bytes_eq.
Qed.

(** With one address space and four-byte data pointers,
    [start_application_erase()] transmits the register address 0xF1 followed
    by the four bytes of the erase sequence. *)
Lemma start_application_erase_four_byte_pointers (w : World Dev) :
  flat_memory pgm_read_byte →
  start_application_erase 4 pgm_read_byte w =
    let '(status, w') :=
      after_transmission w [Byte.xf1; Byte.xe7; Byte.xa7; Byte.xe6; Byte.x09] in
    Some (if status =? 0 then true else false, w').
Proof.
  intros Hflat. unfold start_application_erase, write_application_erase.
  rewrite (memcpy_P_flat _ CCS811_APPLICATION_ERASE_SEQUENCE 4 Hflat) by (simpl; lia).
  by rewrite write_bytes_eq.
Qed.

(** C5, at the failing input: with two-byte data pointers the length
    [sizeof(sequence)] that [write(ccs811_application_erase_t)] passes on is
    2, and [start_application_erase()] transmits the register address 0xF1
    followed by two bytes only, the first two of the four that [memcpy_P]
    put in the local, whatever the transport and whatever program memory
    holds.  With one address space these two bytes are the first two bytes
    of the erase sequence, 0xE7 and 0xA7. *)
Theorem start_application_erase_two_byte_pointers (w : World Dev) :
  start_application_erase 2 pgm_read_byte w =
    (let '(status, w') :=
       after_transmission w
         [Byte.xf1; pgm_read_byte CCS811_APPLICATION_ERASE_SEQUENCE 0;
          pgm_read_byte CCS811_APPLICATION_ERASE_SEQUENCE 1] in
     Some (if status =? 0 then true else false, w'))
  ∧ start_application_erase 2 flat_read_byte w =
    (let '(status, w') := after_transmission w [Byte.xf1; Byte.xe7; Byte.xa7] in
     Some (if status =? 0 then true else false, w')).
Proof.
  split; unfold start_application_erase, write_application_erase;
    by rewrite write_bytes_eq.
Qed.

(** With pointers wider than the four-byte array, the transmission loop
    reads past the end of the local [sequence]. *)
Lemma start_application_erase_eight_byte_pointers (w : World Dev) :
  start_application_erase 8 pgm_read_byte w = None.
Proof.
  unfold start_application_erase, write_application_erase. by rewrite write_bytes_eq.
Qed.

End Commands.

(** ** The scalar getters *)

Section Getters.
Context {Dev : Type} `{I2CBus Dev}.

Lemma to_uint16_to_int16 (b0 b1 : uint8_t) :
  to_uint16 (to_int16 (u16_of_raw b0 b1)) = u16_of_raw b0 b1.
Proof.
  unfold to_uint16, to_int16, u16_of_raw.
  pose proof (byte_to_Z_range b0). pose proof (byte_to_Z_range b1).
  rewrite (Z.mod_small (byte_to_Z b0 + 256 * byte_to_Z b1)) by lia.
  destruct (Z.ltb_spec (byte_to_Z b0 + 256 * byte_to_Z b1) 32768).
  - apply Z.mod_small. lia.
  - rewrite <- (Z.mod_small (byte_to_Z b0 + 256 * byte_to_Z b1) 65536) at 2 by lia.
    rewrite <- (Z_mod_plus_full (byte_to_Z b0 + 256 * byte_to_Z b1 - 65536) 1 65536).
    f_equal. lia.
Qed.

(** When the read delivers two bytes, [get_eCO2()] returns them decoded in
    host order: the first byte received is the low byte of the result. *)
Lemma get_eCO2_host_order (data : list uint8_t) (w : World Dev) d1 b0 b1 d2 :
  length data = 2%nat →
  bus_write (_device_address w) [reg_addr ALG_RESULT_DATA] (device w) = (0, d1) →
  bus_read (_device_address w) 2 d1 = ([b0; b1], d2) →
  ∃ w', get_eCO2 data w = Some (byte_to_Z b0 + 256 * byte_to_Z b1, w').
Proof.
  intros Hlen Hw Hr. unfold get_eCO2, read_eCO2_data.
  destruct data as [|x0 [|x1 [|]]]; try done.
  erewrite bind_Some; last first.
  { rewrite read_bytes_eq. unfold after_transmission. rewrite Hw.
    unfold after_request. cbn [_device_address device]. rewrite Hr. reflexivity. }
  simpl. munfold. simpl. rewrite to_uint16_to_int16. eexists. reflexivity.
Qed.

(** C1, at the failing input: over a transport that acknowledges the
    register address 0x02 and delivers the bytes 0x01, 0x2C, [get_eCO2()]
    returns 0x2C01 = 11265, not the big-endian value 300. *)
Theorem get_eCO2_of_01_2C (data : list uint8_t) (w : World Dev) d1 d2 :
  length data = 2%nat →
  bus_write (_device_address w) [reg_addr ALG_RESULT_DATA] (device w) = (0, d1) →
  bus_read (_device_address w) 2 d1 = ([Byte.x01; Byte.x2c], d2) →
  ∃ w', get_eCO2 data w = Some (11265, w') ∧ 11265 ≠ 300.
Proof.
  intros Hlen Hw Hr.
  destruct (get_eCO2_host_order data w d1 Byte.x01 Byte.x2c d2 Hlen Hw Hr) as [w' Hw'].
  exists w'. split; [exact Hw'|lia].
Qed.

End Getters.

Lemma get_eCO2_of_01_2C_witness :
  ∃ w',
    get_eCO2 [Byte.x00; Byte.x00]
      (new_world CCS811_DEFAULT_I2C_ADDRESS
         {| statuses := [0]; replies := [[Byte.x01; Byte.x2c]] |})
      = Some (11265, w')
    ∧ 11265 ≠ 300.
Proof.
  assert (Hlen : length [Byte.x00; Byte.x00] = 2%nat) by reflexivity.
  exact (get_eCO2_of_01_2C [Byte.x00; Byte.x00]
           (new_world CCS811_DEFAULT_I2C_ADDRESS
              {| statuses := [0]; replies := [[Byte.x01; Byte.x2c]] |})
           {| statuses := []; replies := [[Byte.x01; Byte.x2c]] |}
           {| statuses := []; replies := [] |}
           Hlen eq_refl eq_refl).
Defined.

(** ** Start-up check *)

Section CommsCheck.
Context {Dev : Type} `{I2CBus Dev}.

(** When the first read of the hardware-ID register is acknowledged and
    delivers a byte, [comms_check()] makes no further attempt and no delay,
    and returns whether that byte is 0x81. *)
Lemma comms_check_first_attempt (id0 : uint8_t) (w : World Dev) d1 b rest d2 :
  bus_write (_device_address w) [reg_addr HW_ID] (device w) = (0, d1) →
  bus_read (_device_address w) 1 d1 = (b :: rest, d2) →
  ∃ w',
    comms_check [id0] w = Some (Byte.eqb b CCS811_HARDWARE_ID, w')
    ∧ trace w' = trace w ++
        [EvWrite (_device_address w) [reg_addr HW_ID] 0;
         EvRequest (_device_address w) 1 [b]].
Proof.
  intros Hw Hr. unfold comms_check, read_hardware_id.
  erewrite bind_Some; last first.
  { rewrite read_bytes_eq. unfold after_transmission. rewrite Hw.
    unfold after_request. cbn [_device_address device]. rewrite Hr. reflexivity. }
  simpl. munfold. simpl. eexists. split; [reflexivity|].
  by rewrite <- app_assoc.
Qed.

(** When the first transmission is acknowledged but no byte is delivered,
    the read still counts as a success: there is no retry, and the result
    is decided by the content the local [id] happened to have. *)
Lemma comms_check_nothing_delivered (id0 : uint8_t) (w : World Dev) d1 d2 :
  bus_write (_device_address w) [reg_addr HW_ID] (device w) = (0, d1) →
  bus_read (_device_address w) 1 d1 = ([], d2) →
  ∃ w',
    comms_check [id0] w = Some (Byte.eqb id0 CCS811_HARDWARE_ID, w')
    ∧ trace w' = trace w ++
        [EvWrite (_device_address w) [reg_addr HW_ID] 0;
         EvRequest (_device_address w) 1 []].
Proof.
  intros Hw Hr. unfold comms_check, read_hardware_id.
  erewrite bind_Some; last first.
  { rewrite read_bytes_eq. unfold after_transmission. rewrite Hw.
    unfold after_request. cbn [_device_address device]. rewrite Hr. reflexivity. }
  simpl. munfold. simpl. eexists. split; [reflexivity|].
  by rewrite <- app_assoc.
Qed.

(** One read of the hardware-ID register makes one transmission and no
    delay. *)
Lemma read_hardware_id_events (id : list uint8_t) (w : World Dev) r w' :
  read_hardware_id id w = Some (r, w') →
  ∃ events,
    trace w' = trace w ++ events
    ∧ length (List.filter is_transmission events) = 1%nat
    ∧ List.filter is_delay events = [].
Proof.
  unfold read_hardware_id. rewrite read_bytes_eq. unfold after_transmission.
  destruct (bus_write _ _ _) as [status d]. destruct (status =? 0).
  - unfold after_request. simpl. destruct (bus_read _ _ _) as [bytes d2].
    case_decide; [|done]. intros [= <- <-]. simpl.
    eexists. split; [by rewrite <- app_assoc|]. done.
  - intros [= <- <-]. simpl. eexists. split; [reflexivity|]. done.
Qed.

Lemma comms_check_loop_events todo : ∀ success (id : list uint8_t) (w : World Dev) id' w',
  comms_check_loop todo success id w = Some (id', w') →
  ∃ events,
    trace w' = trace w ++ events
    ∧ (length (List.filter is_transmission events) ≤ todo)%nat
    ∧ (length (List.filter is_delay events) ≤ todo)%nat
    ∧ Forall (λ e, ∀ ms, e = EvDelay ms → ms = 10) events.
Proof.
  induction todo as [|todo IH]; intros success id w id' w' E; simpl in E.
  - injection E as <- <-. exists []. rewrite app_nil_r. simpl. repeat split; [lia|lia|done].
  - destruct success.
    { injection E as <- <-. exists []. rewrite app_nil_r. simpl.
      repeat split; [lia|lia|done]. }
    apply bind_inv in E as ([success' id1] & w1 & E1 & E).
    apply bind_inv in E as ([] & w2 & [= <-] & E).
    apply read_hardware_id_events in E1 as (ev1 & Ht1 & Hn1 & Hd1).
    apply IH in E as (ev2 & Ht2 & Hn2 & Hd2 & Hms). simpl in Ht2.
    exists (ev1 ++ [EvDelay 10] ++ ev2).
    rewrite !List.filter_app, !length_app, Hd1. simpl. repeat split.
    + rewrite Ht2, Ht1. by rewrite <- !app_assoc.
    + lia.
    + lia.
    + apply Forall_app. split.
      * apply Forall_forall. intros e He ms ->.
        assert (Hin : EvDelay ms ∈ List.filter is_delay ev1)
          by (apply list_elem_of_In, List.filter_In; split; [by apply list_elem_of_In|done]).
        rewrite Hd1 in Hin. by apply elem_of_nil in Hin.
      * constructor; [by intros ms [= <-]|done].
Qed.

(** Whatever the transport, [comms_check()] makes at most eleven reads of
    the hardware-ID register (the first attempt and at most ten retries) and
    at most ten delays, each of 10 ms. *)
Lemma comms_check_attempts (id : list uint8_t) (w : World Dev) b w' :
  comms_check id w = Some (b, w') →
  ∃ events,
    trace w' = trace w ++ events
    ∧ (length (List.filter is_transmission events) ≤ 11)%nat
    ∧ (length (List.filter is_delay events) ≤ 10)%nat
    ∧ Forall (λ e, ∀ ms, e = EvDelay ms → ms = 10) events.
Proof.
  unfold comms_check. intros E.
  apply bind_inv in E as ([success id1] & w1 & E1 & E).
  apply bind_inv in E as (id2 & w2 & E2 & E).
  apply bind_inv in E as (raw & w3 & E3 & [= _ <-]).
  apply lift_inv in E3 as [_ ->].
  apply read_hardware_id_events in E1 as (ev1 & Ht1 & Hn1 & Hd1).
  apply comms_check_loop_events in E2 as (ev2 & Ht2 & Hn2 & Hd2 & Hms).
  exists (ev1 ++ ev2). rewrite !List.filter_app, !length_app, Hd1. simpl. repeat split.
  - by rewrite Ht2, Ht1, app_assoc.
  - lia.
  - lia.
  - apply Forall_app. split; [|done].
    apply Forall_forall. intros e He ms ->.
    assert (Hin : EvDelay ms ∈ List.filter is_delay ev1)
      by (apply list_elem_of_In, List.filter_In; split; [by apply list_elem_of_In|done]).
    rewrite Hd1 in Hin. by apply elem_of_nil in Hin.
Qed.

End CommsCheck.

(** Over a script that is used up, every read of the hardware-ID register
    fails in its address phase and leaves the script used up. *)
Lemma comms_check_loop_never_acknowledged todo : ∀ (id : list uint8_t) (w : World Script),
  statuses (device w) = [] →
  ∃ w',
    comms_check_loop todo false id w = Some (id, w')
    ∧ _device_address w' = _device_address w
    ∧ trace w' = trace w ++
        concat (replicate todo
                  [EvWrite (_device_address w) [reg_addr HW_ID] 2; EvDelay 10]).
Proof.
  induction todo as [|todo IH]; intros id w Hs; simpl.
  - eexists. split; [reflexivity|]. split; [done|]. by rewrite app_nil_r.
  - unfold read_hardware_id.
    erewrite bind_Some; last first.
    { rewrite read_bytes_eq. unfold after_transmission. simpl. rewrite Hs.
      simpl. reflexivity. }
    simpl. munfold. unfold delay at 1. simpl.
    edestruct (IH id) as (w' & Hrun & Ha & Ht); last first.
    { exists w'. split; [exact Hrun|]. split; [exact Ha|].
      rewrite Ht. simpl. by rewrite <- !app_assoc. }
    simpl. destruct w as [a wire [sts rs] t]. simpl in *. by subst.
Qed.

(** C3, at the failing input: over a transport that never acknowledges,
    [comms_check()] makes the first attempt and ten retries, each retry
    followed by a delay of 10 ms, and then compares the local [id], which no
    read has written, with 0x81.  Its result is whatever that content
    decides: true when the content is 0x81. *)
Theorem comms_check_never_acknowledged (address : uint8_t) :
  ∃ w',
    comms_check [Byte.x81] (new_world address {| statuses := []; replies := [] |})
      = Some (true, w')
    ∧ trace w' =
        EvWrite address [Byte.x20] 2
        :: concat (replicate 10 [EvWrite address [Byte.x20] 2; EvDelay 10]).
Proof.
  unfold comms_check, read_hardware_id.
  erewrite bind_Some; last by (rewrite read_bytes_eq; reflexivity).
  cbn iota beta.
  edestruct (comms_check_loop_never_acknowledged 10 [Byte.x81]) as (w' & Hrun & Ha & Ht);
    last first.
  { erewrite bind_Some by exact Hrun. eexists. split; [reflexivity|]. exact Ht. }
  reflexivity.
Qed.

(** The first attempt succeeding with the byte 0x81, on the scripted
    transport. *)
Example comms_check_first_attempt_0x81 :
  outcome (comms_check [Byte.x00]
             (new_world CCS811_DEFAULT_I2C_ADDRESS
                {| statuses := [0]; replies := [[Byte.x81]] |}))
  = Some (true, [EvWrite Byte.x5a [Byte.x20] 0; EvRequest Byte.x5a 1 [Byte.x81]]).
Proof. vm_compute. reflexivity. Qed.

(** A transport that delivers a byte other than 0x81. *)
Example comms_check_mismatch :
  outcome (comms_check [Byte.x81]
             (new_world CCS811_DEFAULT_I2C_ADDRESS
                {| statuses := [0]; replies := [[Byte.x80]] |}))
  = Some (false, [EvWrite Byte.x5a [Byte.x20] 0; EvRequest Byte.x5a 1 [Byte.x80]]).
Proof. vm_compute. reflexivity. Qed.

(** Two failed attempts, then the byte 0x81 on the second retry. *)
Example comms_check_second_retry :
  outcome (comms_check [Byte.x00]
             (new_world CCS811_DEFAULT_I2C_ADDRESS
                {| statuses := [2; 2; 0]; replies := [[Byte.x81]] |}))
  = Some (true,
          [EvWrite Byte.x5a [Byte.x20] 2;
           EvWrite Byte.x5a [Byte.x20] 2; EvDelay 10;
           EvWrite Byte.x5a [Byte.x20] 0; EvRequest Byte.x5a 1 [Byte.x81]; EvDelay 10]).
Proof. vm_compute. reflexivity. Qed.

(** ** Thresholds: write, then read back *)

Lemma RegisterFile_faithful (d : RegisterFile) : faithful d.
Proof.
  intros a reg data Hdata. destruct data as [|b data]; [done|].
  simpl. split; [done|]. split; [done|].
  rewrite lookup_insert_eq. simpl. by rewrite take_ge by lia.
Qed.

Section Thresholds.
Context {Dev : Type} `{I2CBus Dev}.

(** C7: over a faithful transport, writing a pair of 16-bit thresholds and
    then reading the thresholds register back succeeds and gives the same
    pair: the byte swaps on write and on read cancel.  This holds for every
    pair, in particular for every pair with [low < high]. *)
Theorem co2_thresholds_round_trip (low high : Z) (thresholds0 : list uint8_t) (w : World Dev) :
  0 ≤ low < 65536 → 0 ≤ high < 65536 →
  length thresholds0 = 4%nat →
  faithful (device w) →
  ∃ w1 thresholds w2,
    write_co2_thresholds low high w = Some (true, w1)
    ∧ read_co2_thresholds thresholds0 w1 = Some ((true, thresholds), w2)
    ∧ low_limit thresholds = Some low
    ∧ high_limit thresholds = Some high.
Proof.
  intros Hlow Hhigh Hlen Hfaith.
  destruct thresholds0 as [|x0 [|x1 [|x2 [|x3 [|]]]]]; try done.
  pose proof (u16_of_raw_of_u16 low Hlow) as Hl.
  pose proof (u16_of_raw_of_u16 high Hhigh) as Hh.
  unfold write_co2_thresholds, write_co2_thresholds_t, raw_of_u16.
  set (l0 := Z_to_byte (low mod 256)) in *.
  set (l1 := Z_to_byte (low / 256 mod 256)) in *.
  set (h0 := Z_to_byte (high mod 256)) in *.
  set (h1 := Z_to_byte (high / 256 mod 256)) in *.
  destruct (Hfaith (_device_address w) (reg_addr THRESHOLDS) [l1; l0; h1; h0])
    as (Hack1 & Hack2 & Hback); [done|].
  change (reg_addr THRESHOLDS) with Byte.x10 in *.
  destruct (bus_write (_device_address w) (Byte.x10 :: [l1; l0; h1; h0]) (device w))
    as [st1 d1] eqn:E1.
  change (length [l1; l0; h1; h0]) with 4%nat in Hback.
  cbn [fst snd] in Hack1, Hack2, Hback. subst st1.
  destruct (bus_write (_device_address w) [Byte.x10] d1) as [st2 d2] eqn:E2.
  cbn [fst snd] in Hack2, Hback. subst st2.
  destruct (bus_read (_device_address w) 4 d2) as [bytes d3] eqn:E3.
  cbn [fst snd] in Hback. subst bytes.
  eexists _, [l0; l1; h0; h1], _. split; [|split; [|split]].
  - munfold. simpl. rewrite write_bytes_eq. simpl.
    unfold after_transmission. rewrite E1. reflexivity.
  - unfold read_co2_thresholds.
    erewrite bind_Some; last first.
    { rewrite read_bytes_eq. unfold after_transmission. simpl. rewrite E2. simpl.
      unfold after_request. simpl. rewrite E3. simpl. reflexivity. }
    munfold. simpl. reflexivity.
  - simpl. by rewrite Hl.
  - simpl. by rewrite Hh.
Qed.

End Thresholds.

Lemma co2_thresholds_round_trip_witness :
  ∃ w1 thresholds w2,
    write_co2_thresholds 400 1000
      (new_world CCS811_DEFAULT_I2C_ADDRESS {| pointer := Byte.x00; cells := ∅ |})
      = Some (true, w1)
    ∧ read_co2_thresholds [Byte.x00; Byte.x00; Byte.x00; Byte.x00] w1
      = Some ((true, thresholds), w2)
    ∧ low_limit thresholds = Some 400
    ∧ high_limit thresholds = Some 1000.
Proof.
  assert (Hlow : 0 ≤ 400 < 65536) by lia.
  assert (Hhigh : 0 ≤ 1000 < 65536) by lia.
  assert (Hlen : length [Byte.x00; Byte.x00; Byte.x00; Byte.x00] = 4%nat) by reflexivity.
  exact (co2_thresholds_round_trip 400 1000 [Byte.x00; Byte.x00; Byte.x00; Byte.x00]
           (new_world CCS811_DEFAULT_I2C_ADDRESS {| pointer := Byte.x00; cells := ∅ |})
           Hlow Hhigh Hlen
           (RegisterFile_faithful {| pointer := Byte.x00; cells := ∅ |})).
Defined.

(** ** The stored device address *)

Create HintDb frame.

Section Frame.
Context {Dev : Type} `{I2CBus Dev}.
Variable sizeof_ptr : nat.
Variable pgm_read_byte : list uint8_t → nat → uint8_t.
Variable a : uint8_t.

Lemma keeps_ret {A} (x : A) : keeps_address a (mret x : M Dev A).
Proof.
  intros w y w' Ha [= <- <-]. split; [done|].
  exists []. split; [by rewrite app_nil_r|constructor].
Qed.

Lemma keeps_lift {A} (o : option A) : keeps_address a (lift o : M Dev A).
Proof.
  intros w y w' Ha E. apply lift_inv in E as [_ ->]. split; [done|].
  exists []. split; [by rewrite app_nil_r|constructor].
Qed.

Lemma keeps_bind {A B} (m : M Dev A) (f : A → M Dev B) :
  keeps_address a m → (∀ x, keeps_address a (f x)) → keeps_address a (m ≫= f).
Proof.
  intros Hm Hf w y w' Ha E. apply bind_inv in E as (x & w1 & E1 & E2).
  destruct (Hm w x w1 Ha E1) as (Ha1 & ev1 & Ht1 & Hev1).
  destruct (Hf x w1 y w' Ha1 E2) as (Ha2 & ev2 & Ht2 & Hev2).
  split; [done|]. exists (ev1 ++ ev2). split.
  - by rewrite Ht2, Ht1, app_assoc.
  - by apply Forall_app.
Qed.

Lemma keeps_delay ms : keeps_address a (delay ms : M Dev unit).
Proof.
  intros w y w' Ha [= <- <-]. split; [done|].
  exists [EvDelay ms]. split; [done|]. by repeat constructor.
Qed.

Lemma keeps_write_bytes input address length :
  keeps_address a (write_bytes input address length : M Dev bool).
Proof.
  intros w y w' Ha. rewrite write_bytes_eq. case_decide; [|done].
  unfold after_transmission. destruct (bus_write _ _ _) as [status d].
  intros [= <- <-]. split; [done|]. eexists. split; [reflexivity|].
  repeat constructor. simpl. by intros b [= <-].
Qed.

Lemma keeps_read_bytes output address length :
  keeps_address a (read_bytes output address length : M Dev (bool * list uint8_t)).
Proof.
  intros w y w' Ha. rewrite read_bytes_eq.
  unfold after_transmission. destruct (bus_write _ _ _) as [status d].
  destruct (status =? 0).
  - unfold after_request. simpl. destruct (bus_read _ _ _) as [bytes d2].
    case_decide; [|done]. intros [= <- <-]. split; [done|].
    eexists. split; [simpl; by rewrite <- app_assoc|].
    repeat constructor; simpl; by intros b [= <-].
  - intros [= <- <-]. split; [done|]. eexists. split; [reflexivity|].
    repeat constructor. simpl. by intros b [= <-].
Qed.

Hint Resolve keeps_ret keeps_lift keeps_delay keeps_write_bytes keeps_read_bytes : frame.

Ltac frame :=
  repeat first
    [ progress eauto with frame
    | apply keeps_bind
    | intros [? ?]
    | intro ].

Lemma keeps_comms_check_loop todo : ∀ success id,
  keeps_address a (comms_check_loop todo success id : M Dev (list uint8_t)).
Proof.
  induction todo as [|todo IH]; intros success id; simpl; [frame|].
  destruct success; [frame|].
  apply keeps_bind; [unfold read_hardware_id; frame|].
  intros [success' id']. apply keeps_bind; [frame|]. intros _. apply IH.
Qed.

Lemma keeps_comms_check id : keeps_address a (comms_check id : M Dev bool).
Proof.
  unfold comms_check. apply keeps_bind; [unfold read_hardware_id; frame|].
  intros [success id']. apply keeps_bind; [apply keeps_comms_check_loop|]. frame.
Qed.

Lemma keeps_typed_read k object :
  keeps_address a (typed_read k object : M Dev (bool * list uint8_t)).
Proof.
  destruct k; cbn [typed_read];
    unfold read_status, read_measure_config, read_co2_thresholds, read_eCO2_data,
      read_eTVOC_data, read_raw_data, read_air_quality_data, read_all_data,
      read_baseline, read_hardware_id, read_hardware_version,
      read_firmware_boot_version, read_firmware_application_version, read_error;
    frame.
Qed.

Lemma keeps_typed_write k object :
  keeps_address a (typed_write k object : M Dev bool).
Proof.
  destruct k; cbn [typed_write];
    unfold write_measure_config, write_environmental_data_t, write_co2_thresholds_t,
      write_baseline, write_application_data, write_application_verify,
      write_application_start;
    frame.
Qed.

(** Every public operation other than [begin] keeps the stored address and
    addresses its transactions to it. *)
Lemma keeps_run op :
  is_begin op = false →
  keeps_address a (run sizeof_ptr pgm_read_byte op : M Dev Reply).
Proof.
  pose proof keeps_comms_check. pose proof keeps_typed_read. pose proof keeps_typed_write.
  intros Hop. destruct op; try done; cbn [run];
    unfold write_environmental_data, write_environmental_data_t, write_co2_thresholds,
      write_co2_thresholds_t, get_eCO2, get_eTVOC, read_eCO2_data, read_eTVOC_data,
      reset, write_reset, start_application_erase, write_application_erase,
      start_application_verify, write_application_verify, start_application_mode,
      write_application_start;
    frame.
Qed.

End Frame.

Section StoredAddress.
Context {Dev : Type} `{I2CBus Dev}.
Variable sizeof_ptr : nat.
Variable pgm_read_byte : list uint8_t → nat → uint8_t.

Lemma stored_address_cons op ops a0 :
  stored_address (op :: ops) a0 = stored_address ops (stored_address [op] a0).
Proof. by destruct op. Qed.

(** One call: [begin(a)] ends with [a] stored, every other operation with
    the address it found; either way the transactions of the call are
    addressed to the address stored at its end. *)
Lemma run_address op (w : World Dev) r w' :
  run sizeof_ptr pgm_read_byte op w = Some (r, w') →
  _device_address w' = stored_address [op] (_device_address w)
  ∧ ∃ events, trace w' = trace w ++ events
      ∧ addressed_to (stored_address [op] (_device_address w)) events.
Proof.
  intros E. destruct (is_begin op) eqn:Hop.
  - destruct op as [a id| | | | | | | | | | |]; try done. simpl in *.
    apply bind_inv in E as (b & w1 & E1 & [= <- <-]).
    unfold begin in E1. apply bind_inv in E1 as ([] & w0 & [= <-] & E2).
    by apply (keeps_comms_check a id _ b w1) in E2.
  - replace (stored_address [op] (_device_address w)) with (_device_address w)
      by (by destruct op).
    by apply (keeps_run sizeof_ptr pgm_read_byte (_device_address w) op Hop w r w').
Qed.

(** C10: along any sequence of public calls, the address stored in the
    driver object is the argument of the most recent [begin] (the initial
    content when there was none): no other operation assigns it.  The bus
    transactions of the [i]-th call are all addressed to the address stored
    after the calls up to and including that one, that is, to the argument
    of the most recent [begin]. *)
Theorem device_address_set_by_begin_only (ops : list Op) (w : World Dev) rs w' :
  run_all sizeof_ptr pgm_read_byte ops w = Some (rs, w') →
  _device_address w' = stored_address ops (_device_address w)
  ∧ ∃ groups : list (list Event),
      length groups = length ops
      ∧ trace w' = trace w ++ concat groups
      ∧ ∀ i events, groups !! i = Some events →
          addressed_to (stored_address (take (S i) ops) (_device_address w)) events.
Proof.
  revert w rs w'. induction ops as [|op ops IH]; intros w rs w' E.
  - injection E as <- <-. split; [done|]. exists []. split; [done|].
    split; [by rewrite app_nil_r|]. intros i events Hi. done.
  - cbn [run_all] in E. apply bind_inv in E as (r & w1 & E1 & E2).
    apply bind_inv in E2 as (rs' & w2 & E2 & [= <- <-]).
    destruct (run_address op w r w1 E1) as (Ha1 & ev1 & Ht1 & Hev1).
    destruct (IH w1 rs' w2 E2) as (Ha2 & groups & Hlen & Ht2 & Hgroups).
    rewrite stored_address_cons. split; [by rewrite Ha2, Ha1|].
    exists (ev1 :: groups). split; [simpl; by rewrite Hlen|]. split.
    + simpl. by rewrite Ht2, Ht1, app_assoc.
    + intros [|i] events Hi.
      * injection Hi as <-. change (take 1 (op :: ops)) with [op]. exact Hev1.
      * simpl in Hi. specialize (Hgroups i events Hi). rewrite Ha1 in Hgroups.
        change (take (S (S i)) (op :: ops)) with (op :: take (S i) ops).
        by rewrite stored_address_cons.
Qed.

End StoredAddress.

Lemma device_address_set_by_begin_only_witness :
  let ops := [OpBegin Byte.x5b [Byte.x00]; OpReset] in
  let w := new_world CCS811_DEFAULT_I2C_ADDRESS
             {| statuses := [0; 0]; replies := [[Byte.x81]] |} in
  let w' :=
    {| _device_address := Byte.x5b;
       Wire := {| txAddress := Byte.x5b; txBuffer := []; rxBuffer := [] |};
       device := {| statuses := []; replies := [] |};
       trace := [EvWrite Byte.x5b [Byte.x20] 0; EvRequest Byte.x5b 1 [Byte.x81];
                 EvWrite Byte.x5b [Byte.xff; Byte.x11; Byte.xe5; Byte.x72; Byte.x8a] 0] |} in
  _device_address w' = stored_address ops (_device_address w)
  ∧ ∃ groups : list (list Event),
      length groups = length ops
      ∧ trace w' = trace w ++ concat groups
      ∧ ∀ i events, groups !! i = Some events →
          addressed_to (stored_address (take (S i) ops) (_device_address w)) events.
Proof.
  intros ops w w'.
  assert (Hrun : run_all 4 flat_read_byte ops w = Some ([RBool true; RBool true], w'))
    by (vm_compute; reflexivity).
  exact (device_address_set_by_begin_only 4 flat_read_byte ops w
           [RBool true; RBool true] w' Hrun).
Defined.

(** ** Reporting of transport failures *)

Section Failure.
Context {Dev : Type} `{I2CBus Dev}.
Variable sizeof_ptr : nat.
Variable pgm_read_byte : list uint8_t → nat → uint8_t.

(** The transmission a call has put on the bus, read off the history: the
    first event the call added. *)
Lemma write_bytes_refused input address length (w : World Dev) b w'
    a payload status later :
  write_bytes input address length w = Some (b, w') →
  trace w' = trace w ++ EvWrite a payload status :: later →
  status ≠ 0 →
  b = false.
Proof.
  rewrite write_bytes_eq. case_decide; [|done].
  unfold after_transmission. destruct (bus_write _ _ _) as [st d].
  intros [= <- <-] Ht Hst. simpl in Ht. apply app_inv_head in Ht.
  injection Ht as _ _ -> _. by destruct (Z.eqb_spec status 0).
Qed.

Lemma read_bytes_refused output address length (w : World Dev) b output' w'
    a payload status later :
  read_bytes output address length w = Some ((b, output'), w') →
  trace w' = trace w ++ EvWrite a payload status :: later →
  status ≠ 0 →
  b = false ∧ output' = output.
Proof.
  rewrite read_bytes_eq. unfold after_transmission.
  destruct (bus_write _ _ _) as [st d]. destruct (Z.eqb_spec st 0) as [->|Hne].
  - unfold after_request. simpl. destruct (bus_read _ _ _) as [bytes d2].
    case_decide; [|done]. intros [= _ _ <-] Ht Hst. simpl in Ht.
    rewrite <- app_assoc in Ht. apply app_inv_head in Ht.
    injection Ht as _ _ <- _. done.
  - by intros [= <- <- _] _ _.
Qed.

Lemma typed_write_refused k object (w : World Dev) b w' a payload status later :
  typed_write k object w = Some (b, w') →
  trace w' = trace w ++ EvWrite a payload status :: later →
  status ≠ 0 →
  b = false.
Proof.
  intros E Ht Hst. destruct k; cbn [typed_write] in E;
    try (by eapply write_bytes_refused).
  unfold write_co2_thresholds_t in E.
  apply bind_inv in E as (t1 & w1 & E1 & E).
  apply bind_inv in E as (t2 & w2 & E2 & E).
  apply lift_inv in E1 as [_ ->]. apply lift_inv in E2 as [_ ->].
  by eapply write_bytes_refused.
Qed.

Lemma typed_read_refused k object (w : World Dev) b object' w' a payload status later :
  typed_read k object w = Some ((b, object'), w') →
  trace w' = trace w ++ EvWrite a payload status :: later →
  status ≠ 0 →
  b = false.
Proof.
  intros E Ht Hst. destruct k; cbn [typed_read] in E;
    try (by eapply read_bytes_refused).
  - unfold read_co2_thresholds in E.
    apply bind_inv in E as ([b1 t1] & w1 & E1 & E).
    apply bind_inv in E as (t2 & w2 & E2 & E). apply lift_inv in E2 as [_ ->].
    apply bind_inv in E as (t3 & w3 & E3 & [= <- _ <-]). apply lift_inv in E3 as [_ ->].
    by eapply read_bytes_refused.
  - unfold read_eTVOC_data in E.
    apply bind_inv in E as ([b1 t1] & w1 & E1 & [= <- _ <-]).
    by eapply read_bytes_refused.
Qed.

(** C2, as amended: when the transmission a call makes is not acknowledged
    (the status of [Wire.endTransmission()] is not 0), every typed read and
    write, [write_environmental_data], [write_co2_thresholds], [reset] and
    the three [start_application_] commands return false.  The getters
    [get_eCO2] and [get_eTVOC] return a bare 16-bit value, with no success
    indicator: the value decoded from the bytes their local buffer held
    before the failed read. *)
Theorem transport_failure_reported (op : Op) (w : World Dev) r w'
    (address : uint8_t) (payload : list uint8_t) (status : Z) (later : list Event) :
  run sizeof_ptr pgm_read_byte op w = Some (r, w') →
  trace w' = trace w ++ EvWrite address payload status :: later →
  status ≠ 0 →
  match op with
  | OpBegin _ _ | OpCommsCheck _ => True
  | OpGetECO2 data =>
      ∃ v, total data = Some v ∧ r = RScalar (to_uint16 v) ∧ reply_success r = None
  | OpGetETVOC output =>
      ∃ v, total (take 2 output) = Some v ∧ r = RScalar (to_uint16 v)
           ∧ reply_success r = None
  | _ => reply_success r = Some false
  end.
Proof.
  intros E Ht Hst. destruct op; try done; cbn [run] in E.
  - apply bind_inv in E as ([b object'] & w1 & E1 & [= <- <-]).
    simpl. f_equal. by eapply typed_read_refused.
  - apply bind_inv in E as (b & w1 & E1 & [= <- <-]).
    simpl. f_equal. by eapply typed_write_refused.
  - apply bind_inv in E as (b & w1 & E1 & [= <- <-]). simpl. f_equal.
    unfold write_environmental_data in E1.
    apply bind_inv in E1 as (x1 & w2 & E2 & E1). apply lift_inv in E2 as [_ ->].
    apply bind_inv in E1 as (x2 & w3 & E2 & E1). apply lift_inv in E2 as [_ ->].
    apply bind_inv in E1 as (x3 & w4 & E2 & E1). apply lift_inv in E2 as [_ ->].
    apply bind_inv in E1 as (x4 & w5 & E2 & E1). apply lift_inv in E2 as [_ ->].
    by eapply write_bytes_refused.
  - apply bind_inv in E as (b & w1 & E1 & [= <- <-]). simpl. f_equal.
    by eapply (typed_write_refused WrCo2Thresholds).
  - apply bind_inv in E as (v & w1 & E1 & [= <- <-]).
    unfold get_eCO2, read_eCO2_data in E1.
    apply bind_inv in E1 as ([b data'] & w2 & E2 & E1).
    apply bind_inv in E1 as (v' & w3 & E3 & [= <- <-]).
    apply lift_inv in E3 as [E3 ->].
    eapply read_bytes_refused in E2 as [_ ->]; [|done..]. by exists v'.
  - apply bind_inv in E as (v & w1 & E1 & [= <- <-]).
    unfold get_eTVOC, read_eTVOC_data in E1.
    apply bind_inv in E1 as ([b data'] & w2 & E2 & E1).
    apply bind_inv in E2 as ([b' output'] & w4 & E2 & [= _ <- <-]).
    apply bind_inv in E1 as (v' & w3 & E3 & [= <- <-]).
    apply lift_inv in E3 as [E3 ->].
    eapply read_bytes_refused in E2 as [_ ->]; [|done..]. by exists v'.
  - apply bind_inv in E as (b & w1 & E1 & [= <- <-]). simpl. f_equal.
    by eapply write_bytes_refused.
  - apply bind_inv in E as (b & w1 & E1 & [= <- <-]). simpl. f_equal.
    by eapply write_bytes_refused.
  - apply bind_inv in E as (b & w1 & E1 & [= <- <-]). simpl. f_equal.
    by eapply write_bytes_refused.
  - apply bind_inv in E as (b & w1 & E1 & [= <- <-]). simpl. f_equal.
    by eapply write_bytes_refused.
Qed.

End Failure.

Lemma used_up_script_nacks rs : nacks {| statuses := []; replies := rs |}.
Proof. intros a payload. simpl. lia. Qed.

(** A call to a device that is at another address than the one stored: the
    device would acknowledge at 0x5B, the call goes to 0x5A. *)
Lemma transport_failure_reported_witness :
  reply_success (RData false [Byte.x2c]) = Some false.
Proof.
  pose (w := new_world CCS811_DEFAULT_I2C_ADDRESS {| own_address := Byte.x5b |}).
  pose (w' := {| _device_address := Byte.x5a;
                 Wire := {| txAddress := Byte.x5a; txBuffer := []; rxBuffer := [] |};
                 device := {| own_address := Byte.x5b |};
                 trace := [EvWrite Byte.x5a [Byte.x00] 2] |}).
  assert (Hrun : run 4 flat_read_byte (OpRead RdStatus [Byte.x2c]) w
                 = Some (RData false [Byte.x2c], w'))
    by (vm_compute; reflexivity).
  assert (Ht : trace w' = trace w ++ EvWrite Byte.x5a [Byte.x00] 2 :: [])
    by reflexivity.
  assert (Hst : 2 ≠ 0) by lia.
  exact (transport_failure_reported 4 flat_read_byte (OpRead RdStatus [Byte.x2c]) w
           (RData false [Byte.x2c]) w' Byte.x5a [Byte.x00] 2 [] Hrun Ht Hst).
Defined.

(** C2, as stated, fails: over a transport that acknowledges nothing,
    [get_eCO2()] returns the value 300 its local buffer happened to hold,
    which is also what it returns over a working transport that delivers
    those bytes; the reply has no success indicator.  So not every public
    operation answers a transport failure with a false. *)
Lemma scalar_getter_swallows_failure :
  nacks {| statuses := []; replies := [] |}
  ∧ fst <$> run 4 flat_read_byte (OpGetECO2 [Byte.x2c; Byte.x01])
              (new_world CCS811_DEFAULT_I2C_ADDRESS {| statuses := []; replies := [] |})
    = Some (RScalar 300)
  ∧ fst <$> run 4 flat_read_byte (OpGetECO2 [Byte.x00; Byte.x00])
              (new_world CCS811_DEFAULT_I2C_ADDRESS
                 {| statuses := [0]; replies := [[Byte.x2c; Byte.x01]] |})
    = Some (RScalar 300)
  ∧ ¬ (∀ (op : Op) (w : World Script) r w',
         nacks (device w) → run 4 flat_read_byte op w = Some (r, w') →
         reply_success r = Some false).
Proof.
  split; [apply used_up_script_nacks|]. split; [by vm_compute|]. split; [by vm_compute|].
  intros Hall.
  assert (Hrun :
    run 4 flat_read_byte (OpGetECO2 [Byte.x2c; Byte.x01])
      (new_world CCS811_DEFAULT_I2C_ADDRESS {| statuses := []; replies := [] |})
    = Some (RScalar 300,
            {| _device_address := Byte.x5a;
               Wire := {| txAddress := Byte.x5a; txBuffer := []; rxBuffer := [] |};
               device := {| statuses := []; replies := [] |};
               trace := [EvWrite Byte.x5a [Byte.x02] 2] |}))
    by (vm_compute; reflexivity).
  specialize (Hall (OpGetECO2 [Byte.x2c; Byte.x01])
                (new_world CCS811_DEFAULT_I2C_ADDRESS {| statuses := []; replies := [] |})
                _ _ (used_up_script_nacks []) Hrun).
  done.
Qed.

(** ** Environmental data *)

Section Truncation.
Import Floats.SpecFloat.

(** The integer a finite float converts to has the float's sign and, as
    magnitude, the integer part of [m * 2 ^ e]. *)
Lemma trunc_toward_zero s m e z :
  F32.trunc (S754_finite s m e) = Some z →
  z = cond_Zopp s (Z.abs z)
  ∧ (0 ≤ e → Z.abs z = Z.pos m * 2 ^ e)
  ∧ (e < 0 → Z.abs z * 2 ^ (- e) ≤ Z.pos m < (Z.abs z + 1) * 2 ^ (- e)).
Proof.
  intros [= <-].
  assert (Hv : 0 ≤ Z.shiftl (Z.pos m) e) by (apply Z.shiftl_nonneg; lia).
  assert (Habs : Z.abs (cond_Zopp s (Z.shiftl (Z.pos m) e)) = Z.shiftl (Z.pos m) e)
    by (destruct s; simpl; lia).
  rewrite Habs. split; [done|]. split.
  - intros He. by apply Z.shiftl_mul_pow2.
  - intros He. rewrite Z.shiftl_div_pow2 by lia.
    assert (Hp : 0 < 2 ^ (- e)) by (apply Z.pow_pos_nonneg; lia).
    pose proof (Z.div_mod (Z.pos m) (2 ^ (- e))) as Hdm.
    pose proof (Z.mod_pos_bound (Z.pos m) (2 ^ (- e)) Hp) as Hmod.
    nia.
Qed.

Lemma cast_uint16_trunc x z :
  F32.cast_uint16 x = Some z ↔ F32.trunc x = Some z ∧ 0 ≤ z < 65536.
Proof.
  unfold F32.cast_uint16. destruct (F32.trunc x) as [v|]; simpl.
  - destruct (Z.leb_spec 0 v), (Z.ltb_spec v 65536); simpl; split.
    all: try (intros [= <-]; split; [reflexivity|lia]).
    all: try discriminate.
    all: intros [[= ->] Hr]; first [reflexivity | lia].
  - split; [done|]. by intros [? _].
Qed.

End Truncation.

Section EnvironmentalData.
Context {Dev : Type} `{I2CBus Dev}.

(** C4, as amended: the two 16-bit values are obtained by the C conversion
    from [float], which discards the fractional part instead of rounding.
    Whenever the integer parts of the binary32 product [humidity * 512] and
    of [(temperature - 25) * 512] are [uint16_t] values,
    [write_environmental_data] transmits to register ENV_DATA (0x05) four
    bytes: the former in bytes 0-1 and the latter in bytes 2-3, each most
    significant byte first. *)
Theorem write_environmental_data_truncates
    (temperature humidity : F32.float) (temperature_total humidity_total : Z) (w : World Dev) :
  F32.trunc (F32.mul humidity (F32.of_int 512)) = Some humidity_total →
  0 ≤ humidity_total < 65536 →
  F32.trunc (F32.mul (F32.sub temperature (F32.of_int 25)) (F32.of_int 512)) = Some temperature_total →
  0 ≤ temperature_total < 65536 →
  write_environmental_data temperature humidity w =
    let '(status, w') :=
      after_transmission w (reg_addr ENV_DATA :: big_endian16 humidity_total ++ big_endian16 temperature_total) in
    Some (if status =? 0 then true else false, w').
Proof.
  intros HH HHr HT HTr.
  assert (EH : F32.cast_uint16 (F32.mul humidity (F32.of_int 512)) = Some humidity_total)
    by (by apply cast_uint16_trunc).
  assert (ET : F32.cast_uint16
                 (F32.mul (F32.sub temperature (F32.of_int 25)) (F32.of_int 512)) = Some temperature_total)
    by (by apply cast_uint16_trunc).
  unfold write_environmental_data, write_environmental_data_t.
  rewrite ET, EH. unfold raw_of_u16, big_endian16. munfold. simpl.
  by rewrite write_bytes_eq.
Qed.

(** A conversion whose value is not a [uint16_t] leaves the behaviour of
    [write_environmental_data] undefined; this is so for every temperature
    below 25 degrees by at least 1/512. *)
Lemma write_environmental_data_undefined
    (temperature humidity : F32.float) (w : World Dev) :
  F32.cast_uint16 (F32.mul (F32.sub temperature (F32.of_int 25)) (F32.of_int 512)) = None →
  write_environmental_data temperature humidity w = None.
Proof. intros E. unfold write_environmental_data. by rewrite E. Qed.

End EnvironmentalData.

Section EnvironmentalExamples.
Import Floats.SpecFloat.

Lemma write_environmental_data_truncates_witness :
  write_environmental_data (F32.of_int 25) F32.humidity_50_00146
    (new_world CCS811_DEFAULT_I2C_ADDRESS {| statuses := [0]; replies := [] |})
  = let '(status, w') :=
      after_transmission
        (new_world CCS811_DEFAULT_I2C_ADDRESS {| statuses := [0]; replies := [] |})
        (reg_addr ENV_DATA :: big_endian16 25600 ++ big_endian16 0) in
    Some (if status =? 0 then true else false, w').
Proof.
  assert (HH : F32.trunc (F32.mul F32.humidity_50_00146 (F32.of_int 512)) = Some 25600)
    by (vm_compute; reflexivity).
  assert (HT : F32.trunc (F32.mul (F32.sub (F32.of_int 25) (F32.of_int 25)) (F32.of_int 512))
               = Some 0)
    by (vm_compute; reflexivity).
  assert (HHr : 0 ≤ 25600 < 65536) by lia.
  assert (HTr : 0 ≤ 0 < 65536) by lia.
  exact (write_environmental_data_truncates (F32.of_int 25) F32.humidity_50_00146 0 25600
           (new_world CCS811_DEFAULT_I2C_ADDRESS {| statuses := [0]; replies := [] |})
           HH HHr HT HTr).
Defined.

(** C4, as stated, fails: at 25 degrees and 50.00146484375 %RH the product
    [humidity * 512] is 25600.75, exactly; rounded it is 25601 = 0x6401, yet
    the bytes transmitted for the humidity are 0x64, 0x00, the integer part
    25600. *)
Lemma write_environmental_data_does_not_round :
  valid_binary F32.prec F32.emax F32.humidity_50_00146 = true
  ∧ F32.mul F32.humidity_50_00146 (F32.of_int 512) = S754_finite false 13107584 (-9)
  ∧ F32.round (F32.mul F32.humidity_50_00146 (F32.of_int 512)) = Some 25601
  ∧ F32.round (F32.mul (F32.sub (F32.of_int 25) (F32.of_int 25)) (F32.of_int 512)) = Some 0
  ∧ big_endian16 25601 ++ big_endian16 0 = [Byte.x64; Byte.x01; Byte.x00; Byte.x00]
  ∧ outcome (write_environmental_data (F32.of_int 25) F32.humidity_50_00146
               (new_world CCS811_DEFAULT_I2C_ADDRESS {| statuses := [0]; replies := [] |}))
    = Some (true,
            [EvWrite CCS811_DEFAULT_I2C_ADDRESS
               [Byte.x05; Byte.x64; Byte.x00; Byte.x00; Byte.x00] 0]).
Proof. repeat split; vm_compute; reflexivity. Qed.

(** The default arguments, 25 degrees and 50 %RH. *)
Example write_environmental_data_defaults :
  outcome (write_environmental_data (F32.of_int 25) (F32.of_int 50)
             (new_world CCS811_DEFAULT_I2C_ADDRESS {| statuses := [0]; replies := [] |}))
  = Some (true,
          [EvWrite CCS811_DEFAULT_I2C_ADDRESS
             [Byte.x05; Byte.x64; Byte.x00; Byte.x00; Byte.x00] 0]).
Proof. vm_compute. reflexivity. Qed.

(** 20 degrees: [(20 - 25) * 512 = -2560] is not a [uint16_t]. *)
Example write_environmental_data_20_degrees :
  F32.trunc (F32.mul (F32.sub (F32.of_int 20) (F32.of_int 25)) (F32.of_int 512))
    = Some (-2560)
  ∧ write_environmental_data (F32.of_int 20) (F32.of_int 50)
      (new_world CCS811_DEFAULT_I2C_ADDRESS {| statuses := [0]; replies := [] |})
    = None.
Proof. split; vm_compute; reflexivity. Qed.

End EnvironmentalExamples.

(** * Further properties of the driver *)

Section TransmissionFacts.
Context {Dev : Type} `{I2CBus Dev}.

Lemma flag_bool_decide (status : Z) :
  (if status =? 0 then true else false) = bool_decide (status = 0).
Proof.
  destruct (Z.eqb_spec status 0).
  - by rewrite bool_decide_eq_true_2.
  - by rewrite bool_decide_eq_false_2.
Qed.

Lemma after_transmission_status (w : World Dev) payload :
  (after_transmission w payload).1 = (bus_write (_device_address w) payload (device w)).1.
Proof. unfold after_transmission. by destruct (bus_write _ _ _). Qed.

Lemma after_transmission_world (w : World Dev) payload :
  (after_transmission w payload).2 =
    {| _device_address := _device_address w;
       Wire := {| txAddress := _device_address w; txBuffer := [];
                  rxBuffer := rxBuffer (Wire w) |};
       device := (bus_write (_device_address w) payload (device w)).2;
       trace := trace w ++
         [EvWrite (_device_address w) payload
            (bus_write (_device_address w) payload (device w)).1] |}.
Proof. unfold after_transmission. by destruct (bus_write _ _ _). Qed.

(** The raw write, with the world after it spelled out. *)
Lemma write_bytes_pair (input : list uint8_t) address length (w : World Dev) :
  write_bytes input address length w =
    if decide (length ≤ List.length input)%nat then
      let payload := reg_addr address :: take length input in
      Some (bool_decide ((after_transmission w payload).1 = 0),
            (after_transmission w payload).2)
    else None.
Proof.
  rewrite write_bytes_eq. case_decide; [|done]. cbv zeta.
  destruct (after_transmission w _) as [status w']. simpl.
  by rewrite flag_bool_decide.
Qed.

End TransmissionFacts.

(** ** Byte-order utility *)

(** X1: on a buffer that holds at least [size] bytes, [swap_endianess]
    reverses the first [size] bytes and leaves every byte after them as it
    was. *)
Theorem swap_endianess_reverses_prefix (buffer : list uint8_t) (size : nat) :
  (size ≤ length buffer)%nat →
  Endian.swap_endianess buffer size
    = Some (reverse (take size buffer) ++ drop size buffer).
Proof.
  intros Hlen.
  destruct (EndianFacts.swap_endianess_lookup buffer size Hlen) as (swapped & Hs & Hl & Hlk).
  rewrite Hs. f_equal. apply list_eq. intros j. rewrite Hlk.
  destruct (decide (j < size)%nat) as [Hj|Hj].
  - rewrite lookup_app_l by (rewrite length_reverse, length_take; lia).
    rewrite reverse_lookup by (rewrite length_take; lia).
    rewrite length_take. rewrite lookup_take_lt by lia. f_equal. lia.
  - rewrite lookup_app_r by (rewrite length_reverse, length_take; lia).
    rewrite length_reverse, length_take, lookup_drop. f_equal. lia.
Qed.

Lemma swap_endianess_reverses_prefix_witness :
  Endian.swap_endianess [Byte.x0a; Byte.x0b; Byte.x0c; Byte.x0d; Byte.x0e] 4
  = Some (reverse (take 4 [Byte.x0a; Byte.x0b; Byte.x0c; Byte.x0d; Byte.x0e])
          ++ drop 4 [Byte.x0a; Byte.x0b; Byte.x0c; Byte.x0d; Byte.x0e]).
Proof.
  assert (Hlen : (4 ≤ length [Byte.x0a; Byte.x0b; Byte.x0c; Byte.x0d; Byte.x0e])%nat)
    by (simpl; lia).
  exact (swap_endianess_reverses_prefix
           [Byte.x0a; Byte.x0b; Byte.x0c; Byte.x0d; Byte.x0e] 4 Hlen).
Defined.

(** X2: [swap_endianess] stays inside the buffer exactly when [size] is at
    most 1 (the loop body never runs) or at most the number of bytes in the
    buffer; for any other [size] its first iteration already reads
    [buffer[size - 1]] past the end. *)
Theorem swap_endianess_defined_iff (buffer : list uint8_t) (size : nat) :
  is_Some (Endian.swap_endianess buffer size)
  ↔ (size ≤ 1)%nat ∨ (size ≤ length buffer)%nat.
Proof.
  split.
  - intros [swapped Hs].
    destruct (decide (size ≤ 1)%nat) as [|Hbig]; [by left|]. right.
    destruct (decide (size ≤ length buffer)%nat) as [|Hout]; [done|]. exfalso.
    unfold Endian.swap_endianess in Hs.
    pose proof (EndianFacts.half_bounds size) as Hhalf.
    destruct (size / 2)%nat as [|todo] eqn:Ehalf; [lia|].
    simpl in Hs. unfold Endian.swap_step in Hs.
    destruct (buffer !! 0%nat) as [temp|]; [|done]. simpl in Hs.
    rewrite (lookup_ge_None_2 buffer (size - 1 - 0)) in Hs by lia. done.
  - intros [Hsmall|Hin].
    + unfold Endian.swap_endianess.
      assert (size / 2 = 0)%nat as -> by (pose proof (EndianFacts.half_bounds size); lia).
      by eexists.
    + rewrite EndianFacts.swap_endianess_reverse by done. by eexists.
Qed.

(** ** Raw register write *)

Section RawWrite.
Context {Dev : Type} `{I2CBus Dev}.

(** X3: the raw write makes one transmission to the stored device address:
    the register address followed by the first [length] bytes of [input], in
    order.  Its result is true exactly when the status of that transmission
    is 0.  Asking for more bytes than [input] holds reads past its end. *)
Theorem write_bytes_transmission (input : list uint8_t) address length (w : World Dev) :
  write_bytes input address length w =
    if decide (length ≤ List.length input)%nat then
      let payload := reg_addr address :: take length input in
      let status := (bus_write (_device_address w) payload (device w)).1 in
      Some (bool_decide (status = 0),
            {| _device_address := _device_address w;
               Wire := {| txAddress := _device_address w; txBuffer := [];
                          rxBuffer := rxBuffer (Wire w) |};
               device := (bus_write (_device_address w) payload (device w)).2;
               trace := trace w ++ [EvWrite (_device_address w) payload status] |})
    else None.
Proof.
  rewrite write_bytes_pair. case_decide; [|done]. cbv zeta.
  by rewrite after_transmission_status, after_transmission_world.
Qed.

End RawWrite.

(** ** Fixed command sequences *)

Section CommandSequences.
Context {Dev : Type} `{I2CBus Dev}.

(** X4: on a target with one address space, where [memcpy_P] copies the
    bytes of the constant, and whatever the width of its pointers, [reset()]
    makes one transmission: the register address 0xFF followed by 0x11,
    0xE5, 0x72, 0x8A.  It returns true exactly when that transmission is
    acknowledged. *)
Theorem reset_transmission
    (sizeof_ptr : nat) (pgm_read_byte : list uint8_t → nat → uint8_t) (w : World Dev) :
  flat_memory pgm_read_byte →
  let payload := [Byte.xff; Byte.x11; Byte.xe5; Byte.x72; Byte.x8a] in
  let status := (bus_write (_device_address w) payload (device w)).1 in
  ∃ w',
    run sizeof_ptr pgm_read_byte OpReset w = Some (RBool (bool_decide (status = 0)), w')
    ∧ trace w' = trace w ++ [EvWrite (_device_address w) payload status].
Proof.
  intros Hflat payload status. cbn [run]. unfold reset, write_reset.
  rewrite (memcpy_P_flat _ CCS811_RESET_SEQUENCE 4 Hflat) by (simpl; lia).
  erewrite bind_Some by (by rewrite write_bytes_pair).
  cbv zeta. change (reg_addr SW_RESET :: take 4 (take 4 CCS811_RESET_SEQUENCE)) with payload.
  rewrite after_transmission_status. fold status.
  eexists. split; [reflexivity|].
  by rewrite after_transmission_world.
Qed.

(** X5: [start_application_erase()] fills a four-byte local by [memcpy_P]
    and transmits the register address 0xF1 followed by as many leading
    bytes of that local as a data pointer is wide: all four only when
    pointers are four bytes wide, fewer when they are narrower.  When
    pointers are wider than four bytes, the transmission loop reads past the
    local.  With one address space the local holds the erase sequence 0xE7,
    0xA7, 0xE6, 0x09; otherwise it holds what program memory has at the
    address of the sequence. *)
Theorem start_application_erase_transmission
    (sizeof_ptr : nat) (pgm_read_byte : list uint8_t → nat → uint8_t) (w : World Dev) :
  (sizeof_ptr < 256)%nat →
  let copied := memcpy_P pgm_read_byte CCS811_APPLICATION_ERASE_SEQUENCE 4 in
  start_application_erase sizeof_ptr pgm_read_byte w =
    (if decide (sizeof_ptr ≤ 4)%nat then
       let '(status, w') := after_transmission w (Byte.xf1 :: take sizeof_ptr copied) in
       Some (bool_decide (status = 0), w')
     else None)
  ∧ length copied = 4%nat
  ∧ (flat_memory pgm_read_byte → copied = [Byte.xe7; Byte.xa7; Byte.xe6; Byte.x09]).
Proof.
  intros Hptr copied. split; [|split].
  - unfold start_application_erase, write_application_erase. fold copied.
    rewrite Nat.mod_small by done. rewrite write_bytes_eq.
    change (List.length copied) with 4%nat.
    case_decide; [|done].
    change (reg_addr APP_ERASE) with Byte.xf1.
    destruct (after_transmission w _) as [status w']. by rewrite flag_bool_decide.
  - reflexivity.
  - intros Hflat. unfold copied.
    by rewrite (memcpy_P_flat _ CCS811_APPLICATION_ERASE_SEQUENCE 4 Hflat) by (simpl; lia).
Qed.

(** X6: [start_application_verify()] and [start_application_mode()] each
    transmit two bytes: the register address (0xF3, 0xF4) and one data byte,
    which is the content of a local that is never assigned. *)
Theorem start_application_commands_send_local (code : uint8_t) (w : World Dev) :
  start_application_verify [code] w =
    (let '(status, w') := after_transmission w [Byte.xf3; code] in
     Some (bool_decide (status = 0), w'))
  ∧ start_application_mode [code] w =
    (let '(status, w') := after_transmission w [Byte.xf4; code] in
     Some (bool_decide (status = 0), w')).
Proof.
  unfold start_application_verify, write_application_verify,
    start_application_mode, write_application_start.
  rewrite !write_bytes_eq. simpl.
  split; destruct (after_transmission w _) as [status w']; do 2 f_equal;
    (destruct (Z.eqb_spec status 0);
     [by rewrite bool_decide_eq_true_2 | by rewrite bool_decide_eq_false_2]).
Qed.

End CommandSequences.

Lemma reset_transmission_witness :
  let w := new_world CCS811_DEFAULT_I2C_ADDRESS {| statuses := [0]; replies := [] |} in
  let payload := [Byte.xff; Byte.x11; Byte.xe5; Byte.x72; Byte.x8a] in
  let status := (bus_write (_device_address w) payload (device w)).1 in
  ∃ w',
    run 2 flat_read_byte OpReset w = Some (RBool (bool_decide (status = 0)), w')
    ∧ trace w' = trace w ++ [EvWrite (_device_address w) payload status].
Proof.
  intros w.
  exact (reset_transmission 2 flat_read_byte w flat_read_byte_flat).
Defined.

Lemma start_application_erase_transmission_witness :
  let w := new_world CCS811_DEFAULT_I2C_ADDRESS {| statuses := [0]; replies := [] |} in
  let copied := memcpy_P flat_read_byte CCS811_APPLICATION_ERASE_SEQUENCE 4 in
  start_application_erase 2 flat_read_byte w =
    (if decide (2 ≤ 4)%nat then
       let '(status, w') := after_transmission w (Byte.xf1 :: take 2 copied) in
       Some (bool_decide (status = 0), w')
     else None)
  ∧ length copied = 4%nat
  ∧ (flat_memory flat_read_byte → copied = [Byte.xe7; Byte.xa7; Byte.xe6; Byte.x09]).
Proof.
  intros w.
  assert (Hptr : (2 < 256)%nat) by lia.
  exact (start_application_erase_transmission 2 flat_read_byte w Hptr).
Defined.

(** ** Start-up check *)

Section CommsCheckBounds.
Context {Dev : Type} `{I2CBus Dev}.

Lemma read_hardware_id_defined (x : uint8_t) (w : World Dev) :
  ∃ success x' w', read_hardware_id [x] w = Some ((success, [x']), w').
Proof.
  unfold read_hardware_id. rewrite read_bytes_eq.
  destruct (after_transmission w _) as [status w1].
  destruct (status =? 0); [|by eexists _, _, _].
  unfold after_request. destruct (bus_read _ _ _) as [bytes d2]. simpl.
  destruct bytes as [|b bytes]; simpl; by eexists _, _, _.
Qed.

Lemma comms_check_loop_defined todo : ∀ success (x : uint8_t) (w : World Dev),
  ∃ x' w', comms_check_loop todo success [x] w = Some ([x'], w').
Proof.
  induction todo as [|todo IH]; intros success x w; simpl; [by eexists _, _|].
  destruct success; [by eexists _, _|].
  destruct (read_hardware_id_defined x w) as (success' & x1 & w1 & E1).
  erewrite bind_Some by exact E1. simpl. munfold. unfold delay at 1.
  apply IH.
Qed.

Lemma comms_check_defined (id0 : uint8_t) (w : World Dev) :
  ∃ b w', comms_check [id0] w = Some (b, w').
Proof.
  unfold comms_check.
  destruct (read_hardware_id_defined id0 w) as (success & x1 & w1 & E1).
  erewrite bind_Some by exact E1. simpl.
  destruct (comms_check_loop_defined 10 success x1 w1) as (x2 & w2 & E2).
  erewrite bind_Some by exact E2. simpl. by eexists _, _.
Qed.

(** X7: whatever the transport does, [comms_check()] returns, after at most
    eleven transmissions (the first attempt and at most ten retries) and at
    most ten delays, each of 10 ms. *)
Theorem comms_check_terminates_bounded (id0 : uint8_t) (w : World Dev) :
  ∃ b w' events,
    comms_check [id0] w = Some (b, w')
    ∧ trace w' = trace w ++ events
    ∧ (length (List.filter is_transmission events) ≤ 11)%nat
    ∧ (length (List.filter is_delay events) ≤ 10)%nat
    ∧ Forall (λ e, ∀ ms, e = EvDelay ms → ms = 10) events.
Proof.
  destruct (comms_check_defined id0 w) as (b & w' & E).
  destruct (comms_check_attempts [id0] w b w' E) as (events & Hev).
  by exists b, w', events.
Qed.

(** X8: when the first transmission of the hardware-ID register address is
    acknowledged, [comms_check()] makes no retry and no delay, whatever the
    device then delivers.  Its result is whether the byte delivered is 0x81
    or, when no byte is delivered, whether the unassigned local holds
    0x81. *)
Theorem comms_check_acknowledged_at_once (id0 : uint8_t) (w : World Dev) d1 bytes d2 :
  bus_write (_device_address w) [reg_addr HW_ID] (device w) = (0, d1) →
  bus_read (_device_address w) 1 d1 = (bytes, d2) →
  ∃ w',
    comms_check [id0] w
      = Some (Byte.eqb (default id0 (head bytes)) CCS811_HARDWARE_ID, w')
    ∧ trace w' = trace w ++
        [EvWrite (_device_address w) [reg_addr HW_ID] 0;
         EvRequest (_device_address w) 1 (take 1 bytes)].
Proof.
  intros Hw Hr. destruct bytes as [|b rest].
  - exact (comms_check_nothing_delivered id0 w d1 d2 Hw Hr).
  - exact (comms_check_first_attempt id0 w d1 b rest d2 Hw Hr).
Qed.

End CommsCheckBounds.

Lemma comms_check_acknowledged_at_once_witness :
  ∃ w',
    comms_check [Byte.x00]
      (new_world CCS811_DEFAULT_I2C_ADDRESS {| statuses := [0]; replies := [[Byte.x81]] |})
      = Some (Byte.eqb (default Byte.x00 (head [Byte.x81])) CCS811_HARDWARE_ID, w')
    ∧ trace w' = [] ++
        [EvWrite CCS811_DEFAULT_I2C_ADDRESS [reg_addr HW_ID] 0;
         EvRequest CCS811_DEFAULT_I2C_ADDRESS 1 (take 1 [Byte.x81])].
Proof.
  exact (comms_check_acknowledged_at_once Byte.x00
           (new_world CCS811_DEFAULT_I2C_ADDRESS
              {| statuses := [0]; replies := [[Byte.x81]] |})
           {| statuses := []; replies := [[Byte.x81]] |}
           [Byte.x81]
           {| statuses := []; replies := [] |}
           eq_refl eq_refl).
Defined.

Lemma read_bytes_not_acknowledged {Dev} `{I2CBus Dev}
    (output : list uint8_t) address length (w : World Dev) :
  (bus_write (_device_address w) [reg_addr address] (device w)).1 ≠ 0 →
  read_bytes output address length w
    = Some ((false, output), (after_transmission w [reg_addr address]).2).
Proof.
  intros Hst. rewrite read_bytes_eq. rewrite <- after_transmission_status in Hst.
  destruct (after_transmission w _) as [status w1]. simpl in *.
  by destruct (Z.eqb_spec status 0).
Qed.

(** The retry loop on a script whose transmissions fail [length failures]
    times before one is acknowledged. *)
Lemma comms_check_loop_late_answer (b : uint8_t) rest failures :
  ∀ todo (x : uint8_t) (w : World Script),
    statuses (device w) = failures ++ [0] →
    replies (device w) = [b :: rest] →
    Forall (λ status, status ≠ 0) failures →
    (length failures < todo)%nat →
    ∃ w',
      comms_check_loop todo false [x] w = Some ([b], w')
      ∧ trace w' = trace w ++
          concat ((λ status, [EvWrite (_device_address w) [Byte.x20] status; EvDelay 10])
                    <$> failures)
          ++ [EvWrite (_device_address w) [Byte.x20] 0;
              EvRequest (_device_address w) 1 [b]; EvDelay 10].
Proof.
  induction failures as [|f failures IH]; intros todo x w Hs Hr Hnz Hlen.
  - destruct todo as [|todo]; [simpl in Hlen; lia|]. simpl.
    unfold read_hardware_id.
    erewrite bind_Some; last first.
    { rewrite read_bytes_eq. unfold after_transmission. simpl. rewrite Hs. simpl.
      unfold after_request. simpl. rewrite Hr. simpl. reflexivity. }
    simpl. munfold. unfold delay at 1. simpl.
    destruct todo; simpl; (eexists; split; [reflexivity|]);
      simpl; by rewrite <- !app_assoc.
  - destruct todo as [|todo]; [simpl in Hlen; lia|]. simpl.
    apply Forall_cons in Hnz as [Hf Hnz].
    unfold read_hardware_id.
    erewrite bind_Some; last first.
    { apply read_bytes_not_acknowledged. simpl. by rewrite Hs. }
    rewrite after_transmission_world. simpl. rewrite Hs. simpl.
    munfold. unfold delay at 1. simpl.
    edestruct (IH todo x) as (w' & Hrun & Ht); last first.
    { exists w'. split; [exact Hrun|]. rewrite Ht. simpl.
      by rewrite <- !app_assoc. }
    + simpl in Hlen. lia.
    + done.
    + simpl. exact Hr.
    + simpl. reflexivity.
Qed.

(** X9: over a transport whose first transmissions fail, at least one and
    at most ten of them, before one is acknowledged and a byte delivered,
    [comms_check()] retries once per failure, waits 10 ms after every retry
    (the successful one included), and returns whether the byte delivered
    is 0x81. *)
Theorem comms_check_late_answer
    (id0 address b : uint8_t) (rest : list uint8_t) (f : Z) (failures : list Z) :
  Forall (λ status, status ≠ 0) (f :: failures) →
  (length failures < 10)%nat →
  ∃ w',
    comms_check [id0] (new_world address (late_answer (f :: failures) (b :: rest)))
      = Some (Byte.eqb b CCS811_HARDWARE_ID, w')
    ∧ trace w' =
        EvWrite address [Byte.x20] f
        :: concat ((λ status, [EvWrite address [Byte.x20] status; EvDelay 10])
                     <$> failures)
        ++ [EvWrite address [Byte.x20] 0; EvRequest address 1 [b]; EvDelay 10].
Proof.
  intros Hnz Hlen. apply Forall_cons in Hnz as [Hf Hnz].
  unfold comms_check, read_hardware_id.
  erewrite bind_Some; last first.
  { apply read_bytes_not_acknowledged. simpl. done. }
  rewrite after_transmission_world. cbn iota beta.
  edestruct (comms_check_loop_late_answer b rest failures 10 id0) as (w' & Hrun & Ht);
    last first.
  { erewrite bind_Some by exact Hrun. eexists. split; [reflexivity|].
    rewrite Ht. reflexivity. }
  - lia.
  - done.
  - reflexivity.
  - reflexivity.
Qed.

Lemma comms_check_late_answer_witness :
  ∃ w',
    comms_check [Byte.x00]
      (new_world CCS811_DEFAULT_I2C_ADDRESS (late_answer [2; 4] [Byte.x81]))
      = Some (Byte.eqb Byte.x81 CCS811_HARDWARE_ID, w')
    ∧ trace w' =
        EvWrite CCS811_DEFAULT_I2C_ADDRESS [Byte.x20] 2
        :: concat ((λ status, [EvWrite CCS811_DEFAULT_I2C_ADDRESS [Byte.x20] status;
                               EvDelay 10]) <$> [4])
        ++ [EvWrite CCS811_DEFAULT_I2C_ADDRESS [Byte.x20] 0;
            EvRequest CCS811_DEFAULT_I2C_ADDRESS 1 [Byte.x81]; EvDelay 10].
Proof.
  assert (Hnz : Forall (λ status, status ≠ 0) [2; 4]) by (repeat constructor; lia).
  assert (Hlen : (length [4] < 10)%nat) by (simpl; lia).
  exact (comms_check_late_answer Byte.x00 CCS811_DEFAULT_I2C_ADDRESS Byte.x81 [] 2 [4]
           Hnz Hlen).
Defined.

(** ** Measurement getters *)

Section GetterDecoding.
Context {Dev : Type} `{I2CBus Dev}.

Lemma read_bytes_acknowledged (output : list uint8_t) address length (w : World Dev) d1 bytes d2 :
  bus_write (_device_address w) [reg_addr address] (device w) = (0, d1) →
  bus_read (_device_address w) length d1 = (bytes, d2) →
  (length ≤ List.length output)%nat →
  ∃ w',
    read_bytes output address length w
      = Some ((true, take length bytes ++ drop (List.length (take length bytes)) output), w')
    ∧ trace w' = trace w ++
        [EvWrite (_device_address w) [reg_addr address] 0;
         EvRequest (_device_address w) length (take length bytes)]
    ∧ _device_address w' = _device_address w
    ∧ device w' = d2.
Proof.
  intros Hw Hr Hlen. rewrite read_bytes_eq. unfold after_transmission. rewrite Hw.
  unfold after_request. cbn [_device_address device]. rewrite Hr. cbv zeta.
  rewrite decide_True by (rewrite length_take; lia).
  eexists. split; [reflexivity|]. simpl. by rewrite <- app_assoc.
Qed.

(** X10: when the register address is acknowledged, [get_eCO2()] returns
    the two bytes of its local in host order, the byte at index 0 as the low
    byte.  A byte the device delivered has replaced the content of the
    local; a byte it did not deliver is the content the unassigned local
    had, and nothing in the result tells the two apart. *)
Theorem get_eCO2_decodes_local (x0 x1 : uint8_t) (w : World Dev) d1 bytes d2 :
  bus_write (_device_address w) [reg_addr ALG_RESULT_DATA] (device w) = (0, d1) →
  bus_read (_device_address w) 2 d1 = (bytes, d2) →
  ∃ w',
    get_eCO2 [x0; x1] w
      = Some (byte_to_Z (default x0 (bytes !! 0%nat))
              + 256 * byte_to_Z (default x1 (bytes !! 1%nat)), w').
Proof.
  intros Hw Hr. unfold get_eCO2, read_eCO2_data.
  destruct (read_bytes_acknowledged [x0; x1] ALG_RESULT_DATA 2 w d1 bytes d2 Hw Hr)
    as (w' & E & _); [simpl; lia|].
  erewrite bind_Some by exact E.
  destruct bytes as [|b0 [|b1 rest]]; simpl; munfold; simpl;
    rewrite to_uint16_to_int16; by eexists.
Qed.

(** X11: [get_eTVOC()] reads four bytes from register 0x02, the register
    [get_eCO2()] reads, and returns bytes 0 and 1 of them in host order:
    the same two bytes [get_eCO2()] returns.  Bytes 2 and 3 have no effect
    on the result. *)
Theorem get_eTVOC_decodes_first_two_bytes
    (o0 o1 o2 o3 : uint8_t) (w : World Dev) d1 bytes d2 :
  bus_write (_device_address w) [reg_addr ALG_RESULT_DATA] (device w) = (0, d1) →
  bus_read (_device_address w) 4 d1 = (bytes, d2) →
  ∃ w',
    get_eTVOC [o0; o1; o2; o3] w
      = Some (byte_to_Z (default o0 (bytes !! 0%nat))
              + 256 * byte_to_Z (default o1 (bytes !! 1%nat)), w')
    ∧ trace w' = trace w ++
        [EvWrite (_device_address w) [Byte.x02] 0;
         EvRequest (_device_address w) 4 (take 4 bytes)].
Proof.
  intros Hw Hr. unfold get_eTVOC, read_eTVOC_data.
  destruct (read_bytes_acknowledged [o0; o1; o2; o3] ALG_RESULT_DATA 4 w d1 bytes d2 Hw Hr)
    as (w' & E & Ht & _); [simpl; lia|].
  erewrite bind_Some; last first.
  { erewrite bind_Some by exact E. reflexivity. }
  exists w'. split; [|exact Ht].
  destruct bytes as [|b0 [|b1 [|b2 [|b3 rest]]]]; simpl; munfold; simpl;
    by rewrite to_uint16_to_int16.
Qed.

(** X12: when the register address is not acknowledged,
    [read(ccs811_eTVOC_data_t&)] returns false and still assigns the
    caller's object: it receives the first two bytes of a local that no
    read has written. *)
Theorem read_eTVOC_data_failure_assigns (o0 o1 o2 o3 : uint8_t) (w : World Dev) :
  (bus_write (_device_address w) [reg_addr ALG_RESULT_DATA] (device w)).1 ≠ 0 →
  ∃ w', read_eTVOC_data [o0; o1; o2; o3] w = Some ((false, [o0; o1]), w').
Proof.
  intros Hst. unfold read_eTVOC_data.
  erewrite bind_Some by (by apply read_bytes_not_acknowledged).
  by eexists.
Qed.

End GetterDecoding.

Lemma get_eCO2_decodes_local_witness :
  ∃ w',
    get_eCO2 [Byte.xaa; Byte.xbb]
      (new_world CCS811_DEFAULT_I2C_ADDRESS {| statuses := [0]; replies := [[Byte.x07]] |})
      = Some (byte_to_Z (default Byte.xaa ([Byte.x07] !! 0%nat))
              + 256 * byte_to_Z (default Byte.xbb ([Byte.x07] !! 1%nat)), w').
Proof.
  exact (get_eCO2_decodes_local Byte.xaa Byte.xbb
           (new_world CCS811_DEFAULT_I2C_ADDRESS
              {| statuses := [0]; replies := [[Byte.x07]] |})
           {| statuses := []; replies := [[Byte.x07]] |}
           [Byte.x07]
           {| statuses := []; replies := [] |}
           eq_refl eq_refl).
Defined.

Lemma get_eTVOC_decodes_first_two_bytes_witness :
  ∃ w',
    get_eTVOC [Byte.x00; Byte.x00; Byte.x00; Byte.x00]
      (new_world CCS811_DEFAULT_I2C_ADDRESS
         {| statuses := [0]; replies := [[Byte.x01; Byte.x90; Byte.x00; Byte.x2a]] |})
      = Some (byte_to_Z (default Byte.x00 ([Byte.x01; Byte.x90; Byte.x00; Byte.x2a] !! 0%nat))
              + 256 * byte_to_Z
                        (default Byte.x00 ([Byte.x01; Byte.x90; Byte.x00; Byte.x2a] !! 1%nat)),
              w')
    ∧ trace w' = [] ++
        [EvWrite CCS811_DEFAULT_I2C_ADDRESS [Byte.x02] 0;
         EvRequest CCS811_DEFAULT_I2C_ADDRESS 4
           (take 4 [Byte.x01; Byte.x90; Byte.x00; Byte.x2a])].
Proof.
  exact (get_eTVOC_decodes_first_two_bytes Byte.x00 Byte.x00 Byte.x00 Byte.x00
           (new_world CCS811_DEFAULT_I2C_ADDRESS
              {| statuses := [0]; replies := [[Byte.x01; Byte.x90; Byte.x00; Byte.x2a]] |})
           {| statuses := []; replies := [[Byte.x01; Byte.x90; Byte.x00; Byte.x2a]] |}
           [Byte.x01; Byte.x90; Byte.x00; Byte.x2a]
           {| statuses := []; replies := [] |}
           eq_refl eq_refl).
Defined.

Lemma read_eTVOC_data_failure_assigns_witness :
  ∃ w',
    read_eTVOC_data [Byte.xde; Byte.xad; Byte.xbe; Byte.xef]
      (new_world CCS811_DEFAULT_I2C_ADDRESS {| statuses := [3]; replies := [] |})
    = Some ((false, [Byte.xde; Byte.xad]), w').
Proof.
  assert (Hst : (bus_write CCS811_DEFAULT_I2C_ADDRESS [reg_addr ALG_RESULT_DATA]
                   {| statuses := [3]; replies := [] |}).1 ≠ 0) by (simpl; lia).
  exact (read_eTVOC_data_failure_assigns Byte.xde Byte.xad Byte.xbe Byte.xef
           (new_world CCS811_DEFAULT_I2C_ADDRESS {| statuses := [3]; replies := [] |})
           Hst).
Defined.

(** ** Thresholds *)

Section ThresholdCodec.
Context {Dev : Type} `{I2CBus Dev}.

(** X13: [write_co2_thresholds(low, high)] makes one transmission: the
    register address 0x10, then [low] and [high], each reduced to 16 bits
    and sent most significant byte first.  The two values are not compared
    with each other: any pair is sent.  The result is true exactly when the
    transmission is acknowledged. *)
Theorem write_co2_thresholds_transmission (low high : Z) (w : World Dev) :
  let payload := Byte.x10 :: big_endian16 low ++ big_endian16 high in
  write_co2_thresholds low high w =
    Some (bool_decide ((after_transmission w payload).1 = 0),
          (after_transmission w payload).2).
Proof.
  intros payload. unfold write_co2_thresholds, write_co2_thresholds_t, raw_of_u16.
  munfold. simpl. by rewrite write_bytes_pair.
Qed.

(** X14: when the register address is acknowledged and the device delivers
    four bytes, [read(ccs811_co2_thresholds_t&)] returns true and the
    object's [low_limit] is the first two bytes read as a big-endian number,
    its [high_limit] the last two. *)
Theorem read_co2_thresholds_decodes_big_endian
    (thresholds0 : list uint8_t) (b0 b1 b2 b3 : uint8_t) (rest : list uint8_t)
    (w : World Dev) d1 d2 :
  length thresholds0 = 4%nat →
  bus_write (_device_address w) [reg_addr THRESHOLDS] (device w) = (0, d1) →
  bus_read (_device_address w) 4 d1 = (b0 :: b1 :: b2 :: b3 :: rest, d2) →
  ∃ thresholds w',
    read_co2_thresholds thresholds0 w = Some ((true, thresholds), w')
    ∧ low_limit thresholds = Some (256 * byte_to_Z b0 + byte_to_Z b1)
    ∧ high_limit thresholds = Some (256 * byte_to_Z b2 + byte_to_Z b3).
Proof.
  intros Hlen Hw Hr.
  destruct thresholds0 as [|x0 [|x1 [|x2 [|x3 [|]]]]]; try done.
  destruct (read_bytes_acknowledged [x0; x1; x2; x3] THRESHOLDS 4 w d1 _ d2 Hw Hr)
    as (w' & E & _); [simpl; lia|].
  unfold read_co2_thresholds. erewrite bind_Some by exact E.
  simpl. munfold. simpl. eexists _, _. split; [reflexivity|].
  split; cbn [low_limit high_limit]; unfold u16_of_raw; apply (f_equal Some); lia.
Qed.

(** X15: [read(ccs811_co2_thresholds_t&)] swaps the bytes of both fields
    of the caller's object whether or not the read succeeded: when the
    register address is not acknowledged it returns false and hands the
    object back with each 16-bit field byte-swapped. *)
Theorem read_co2_thresholds_failure_swaps (t0 t1 t2 t3 : uint8_t) (w : World Dev) :
  (bus_write (_device_address w) [reg_addr THRESHOLDS] (device w)).1 ≠ 0 →
  ∃ w',
    read_co2_thresholds [t0; t1; t2; t3] w = Some ((false, [t1; t0; t3; t2]), w')
    ∧ low_limit [t1; t0; t3; t2] = Some (byte_to_Z t1 + 256 * byte_to_Z t0).
Proof.
  intros Hst. unfold read_co2_thresholds.
  erewrite bind_Some by (by apply read_bytes_not_acknowledged).
  simpl. munfold. simpl. by eexists.
Qed.

End ThresholdCodec.

Lemma read_co2_thresholds_decodes_big_endian_witness :
  ∃ thresholds w',
    read_co2_thresholds [Byte.x00; Byte.x00; Byte.x00; Byte.x00]
      (new_world CCS811_DEFAULT_I2C_ADDRESS
         {| statuses := [0]; replies := [[Byte.x01; Byte.x90; Byte.x03; Byte.xe8]] |})
      = Some ((true, thresholds), w')
    ∧ low_limit thresholds = Some (256 * byte_to_Z Byte.x01 + byte_to_Z Byte.x90)
    ∧ high_limit thresholds = Some (256 * byte_to_Z Byte.x03 + byte_to_Z Byte.xe8).
Proof.
  assert (Hlen : length [Byte.x00; Byte.x00; Byte.x00; Byte.x00] = 4%nat) by reflexivity.
  exact (read_co2_thresholds_decodes_big_endian
           [Byte.x00; Byte.x00; Byte.x00; Byte.x00] Byte.x01 Byte.x90 Byte.x03 Byte.xe8 []
           (new_world CCS811_DEFAULT_I2C_ADDRESS
              {| statuses := [0]; replies := [[Byte.x01; Byte.x90; Byte.x03; Byte.xe8]] |})
           {| statuses := []; replies := [[Byte.x01; Byte.x90; Byte.x03; Byte.xe8]] |}
           {| statuses := []; replies := [] |}
           Hlen eq_refl eq_refl).
Defined.

Lemma read_co2_thresholds_failure_swaps_witness :
  ∃ w',
    read_co2_thresholds [Byte.x90; Byte.x01; Byte.xe8; Byte.x03]
      (new_world CCS811_DEFAULT_I2C_ADDRESS {| statuses := [2]; replies := [] |})
      = Some ((false, [Byte.x01; Byte.x90; Byte.x03; Byte.xe8]), w')
    ∧ low_limit [Byte.x01; Byte.x90; Byte.x03; Byte.xe8]
      = Some (byte_to_Z Byte.x01 + 256 * byte_to_Z Byte.x90).
Proof.
  assert (Hst : (bus_write CCS811_DEFAULT_I2C_ADDRESS [reg_addr THRESHOLDS]
                   {| statuses := [2]; replies := [] |}).1 ≠ 0) by (simpl; lia).
  exact (read_co2_thresholds_failure_swaps Byte.x90 Byte.x01 Byte.xe8 Byte.x03
           (new_world CCS811_DEFAULT_I2C_ADDRESS {| statuses := [2]; replies := [] |})
           Hst).
Defined.

(** ** Write, then read back *)

Section RoundTrips.
Context {Dev : Type} `{I2CBus Dev}.

(** What a faithful transport answers to a write of [data] to a register,
    the selection of that register and a request for as many bytes. *)
Lemma faithful_exchange (data : list uint8_t) address (w : World Dev) :
  data ≠ [] →
  faithful (device w) →
  ∃ d1 d2 d3,
    bus_write (_device_address w) (reg_addr address :: data) (device w) = (0, d1)
    ∧ bus_write (_device_address w) [reg_addr address] d1 = (0, d2)
    ∧ bus_read (_device_address w) (length data) d2 = (data, d3).
Proof.
  intros Hdata Hfaith.
  destruct (Hfaith (_device_address w) (reg_addr address) data Hdata)
    as (Hack1 & Hack2 & Hback).
  destruct (bus_write (_device_address w) (reg_addr address :: data) (device w))
    as [st1 d1] eqn:E1.
  cbn [fst snd] in Hack1, Hack2, Hback. subst st1.
  destruct (bus_write (_device_address w) [reg_addr address] d1) as [st2 d2] eqn:E2.
  cbn [fst snd] in Hack2, Hback. subst st2.
  destruct (bus_read (_device_address w) (length data) d2) as [bytes d3] eqn:E3.
  cbn [fst snd] in Hback. subst bytes.
  by exists d1, d2, d3.
Qed.

(** X16: over a faithful transport, a raw write of a non-empty buffer to a
    register followed by a raw read of as many bytes from the same register
    succeeds twice and fills the output buffer with exactly the bytes
    written, in the order written. *)
Theorem write_bytes_read_bytes_round_trip
    (data output : list uint8_t) address (w : World Dev) :
  data ≠ [] →
  length output = length data →
  faithful (device w) →
  ∃ w1 w2,
    write_bytes data address (length data) w = Some (true, w1)
    ∧ read_bytes output address (length data) w1 = Some ((true, data), w2).
Proof.
  intros Hdata Hlen Hfaith.
  destruct (faithful_exchange data address w Hdata Hfaith) as (d1 & d2 & d3 & E1 & E2 & E3).
  eexists _, _. split.
  - rewrite write_bytes_eq. rewrite decide_True by lia. rewrite take_ge by lia.
    unfold after_transmission. rewrite E1. reflexivity.
  - rewrite read_bytes_eq. unfold after_transmission. cbn [_device_address device].
    rewrite E2. cbn [Z.eqb]. unfold after_request. cbn [_device_address device].
    rewrite E3. cbv zeta. rewrite (take_ge data) by lia.
    rewrite decide_True by lia. rewrite drop_ge by lia. by rewrite app_nil_r.
Qed.

(** X17: over a faithful transport, writing a baseline and reading it back
    returns the same two bytes in the same order: the baseline, unlike the
    thresholds, goes over the bus without a byte swap in either
    direction. *)
Theorem baseline_round_trip (b0 b1 x0 x1 : uint8_t) (w : World Dev) :
  faithful (device w) →
  ∃ w1 w2,
    write_baseline [b0; b1] w = Some (true, w1)
    ∧ trace w1 = trace w ++ [EvWrite (_device_address w) [Byte.x11; b0; b1] 0]
    ∧ read_baseline [x0; x1] w1 = Some ((true, [b0; b1]), w2).
Proof.
  intros Hfaith.
  destruct (faithful_exchange [b0; b1] BASELINE w) as (d1 & d2 & d3 & E1 & E2 & E3);
    [done..|].
  change (reg_addr BASELINE) with Byte.x11 in *. change (length [b0; b1]) with 2%nat in E3.
  unfold write_baseline, read_baseline. eexists _, _. split; [|split].
  - rewrite write_bytes_eq. simpl. unfold after_transmission. rewrite E1. reflexivity.
  - reflexivity.
  - rewrite read_bytes_eq. unfold after_transmission. simpl. rewrite E2. simpl.
    unfold after_request. simpl. rewrite E3. reflexivity.
Qed.

End RoundTrips.

Lemma write_bytes_read_bytes_round_trip_witness :
  ∃ w1 w2,
    write_bytes [Byte.x18] MEAS_MODE (length [Byte.x18])
      (new_world CCS811_DEFAULT_I2C_ADDRESS {| pointer := Byte.x00; cells := ∅ |})
      = Some (true, w1)
    ∧ read_bytes [Byte.x00] MEAS_MODE (length [Byte.x18]) w1
      = Some ((true, [Byte.x18]), w2).
Proof.
  assert (Hdata : [Byte.x18] ≠ []) by discriminate.
  assert (Hlen : length [Byte.x00] = length [Byte.x18]) by reflexivity.
  exact (write_bytes_read_bytes_round_trip [Byte.x18] [Byte.x00] MEAS_MODE
           (new_world CCS811_DEFAULT_I2C_ADDRESS {| pointer := Byte.x00; cells := ∅ |})
           Hdata Hlen (RegisterFile_faithful {| pointer := Byte.x00; cells := ∅ |})).
Defined.

Lemma baseline_round_trip_witness :
  ∃ w1 w2,
    write_baseline [Byte.x12; Byte.x34]
      (new_world CCS811_DEFAULT_I2C_ADDRESS {| pointer := Byte.x00; cells := ∅ |})
      = Some (true, w1)
    ∧ trace w1 = [] ++ [EvWrite CCS811_DEFAULT_I2C_ADDRESS [Byte.x11; Byte.x12; Byte.x34] 0]
    ∧ read_baseline [Byte.x00; Byte.x00] w1 = Some ((true, [Byte.x12; Byte.x34]), w2).
Proof.
  exact (baseline_round_trip Byte.x12 Byte.x34 Byte.x00 Byte.x00
           (new_world CCS811_DEFAULT_I2C_ADDRESS {| pointer := Byte.x00; cells := ∅ |})
           (RegisterFile_faithful {| pointer := Byte.x00; cells := ∅ |})).
Defined.

(** ** Environmental data: where the conversion is defined *)

Section EnvironmentalDomain.
Context {Dev : Type} `{I2CBus Dev}.

(** X18: [write_environmental_data(temperature, humidity)] has defined
    behaviour exactly when both products are finite and their integer parts
    are [uint16_t] values: the integer part of [(temperature - 25) * 512]
    and that of [humidity * 512] must each lie in 0..65535.  A NaN, an
    infinity, or a temperature that makes the first product -1 or less
    leaves the conversion to [uint16_t] undefined. *)
Theorem write_environmental_data_defined_iff
    (temperature humidity : F32.float) (w : World Dev) :
  is_Some (write_environmental_data temperature humidity w)
  ↔ (∃ t, F32.trunc (F32.mul (F32.sub temperature (F32.of_int 25)) (F32.of_int 512))
            = Some t ∧ 0 ≤ t < 65536)
    ∧ (∃ h, F32.trunc (F32.mul humidity (F32.of_int 512)) = Some h ∧ 0 ≤ h < 65536).
Proof.
  split.
  - intros [[b w'] E]. unfold write_environmental_data in E.
    apply bind_inv in E as (t & w1 & E1 & E). apply lift_inv in E1 as [E1 ->].
    apply bind_inv in E as (h & w2 & E2 & E). apply lift_inv in E2 as [E2 ->].
    apply cast_uint16_trunc in E1. apply cast_uint16_trunc in E2.
    split; [by exists t | by exists h].
  - intros [(t & Et) (h & Eh)].
    apply cast_uint16_trunc in Et. apply cast_uint16_trunc in Eh.
    unfold write_environmental_data, write_environmental_data_t.
    rewrite Et, Eh. unfold raw_of_u16. munfold. simpl.
    rewrite write_bytes_pair. simpl. by eexists.
Qed.

(** The conversions on whole numbers of degrees and of percent. *)
Lemma humidity_whole_percent (p : Z) :
  0 ≤ p < 128 →
  F32.cast_uint16 (F32.mul (F32.of_int p) (F32.of_int 512)) = Some (512 * p).
Proof.
  intros Hp.
  assert (Hall : Forall (λ p, F32.cast_uint16 (F32.mul (F32.of_int p) (F32.of_int 512))
                              = Some (512 * p)) (seqZ 0 128))
    by (apply (bool_decide_unpack _); vm_compute; exact I).
  rewrite Forall_forall in Hall. apply Hall. apply elem_of_seqZ. lia.
Qed.

Lemma temperature_whole_degree (n : Z) :
  25 ≤ n < 153 →
  F32.cast_uint16 (F32.mul (F32.sub (F32.of_int n) (F32.of_int 25)) (F32.of_int 512))
    = Some (512 * (n - 25)).
Proof.
  intros Hn.
  assert (Hall : Forall (λ n, F32.cast_uint16
                                (F32.mul (F32.sub (F32.of_int n) (F32.of_int 25))
                                   (F32.of_int 512))
                              = Some (512 * (n - 25))) (seqZ 25 128))
    by (apply (bool_decide_unpack _); vm_compute; exact I).
  rewrite Forall_forall in Hall. apply Hall. apply elem_of_seqZ. lia.
Qed.

(** X19: for a whole number of degrees from 25 to 152 and a whole number of
    percent from 0 to 127, the encoding is exact: the transmission to
    register 0x05 carries [512 * humidity] in bytes 0-1 and
    [512 * (temperature - 25)] in bytes 2-3, each most significant byte
    first, so the second byte of each pair is 0 and the first is twice the
    number. *)
Theorem write_environmental_data_whole_numbers (degrees percent : Z) (w : World Dev) :
  25 ≤ degrees < 153 →
  0 ≤ percent < 128 →
  let payload :=
    [Byte.x05; Z_to_byte (2 * percent); Byte.x00;
     Z_to_byte (2 * (degrees - 25)); Byte.x00] in
  write_environmental_data (F32.of_int degrees) (F32.of_int percent) w =
    Some (bool_decide ((after_transmission w payload).1 = 0),
          (after_transmission w payload).2).
Proof.
  intros Hd Hp payload.
  unfold write_environmental_data, write_environmental_data_t.
  rewrite temperature_whole_degree, humidity_whole_percent by done.
  unfold raw_of_u16. munfold. simpl. rewrite write_bytes_pair. simpl.
  replace (512 * percent / 256 mod 256) with (2 * percent) in *; last first.
  { replace (512 * percent) with (2 * percent * 256) by lia.
    rewrite Z.div_mul by lia. rewrite Z.mod_small; lia. }
  replace ((512 * percent) mod 256) with 0; last first.
  { replace (512 * percent) with (2 * percent * 256) by lia.
    by rewrite Z.mod_mul by lia. }
  replace (512 * (degrees - 25) / 256 mod 256) with (2 * (degrees - 25)); last first.
  { replace (512 * (degrees - 25)) with (2 * (degrees - 25) * 256) by lia.
    rewrite Z.div_mul by lia. rewrite Z.mod_small; lia. }
  replace ((512 * (degrees - 25)) mod 256) with 0; last first.
  { replace (512 * (degrees - 25)) with (2 * (degrees - 25) * 256) by lia.
    by rewrite Z.mod_mul by lia. }
  reflexivity.
Qed.

End EnvironmentalDomain.

Lemma write_environmental_data_whole_numbers_witness :
  let w := new_world CCS811_DEFAULT_I2C_ADDRESS {| statuses := [0]; replies := [] |} in
  let payload :=
    [Byte.x05; Z_to_byte (2 * 40); Byte.x00; Z_to_byte (2 * (30 - 25)); Byte.x00] in
  write_environmental_data (F32.of_int 30) (F32.of_int 40) w =
    Some (bool_decide ((after_transmission w payload).1 = 0),
          (after_transmission w payload).2).
Proof.
  intros w.
  assert (Hd : 25 ≤ 30 < 153) by lia.
  assert (Hp : 0 ≤ 40 < 128) by lia.
  exact (write_environmental_data_whole_numbers 30 40 w Hd Hp).
Defined.

(** ** One transaction per call *)

Section OneTransaction.
Context {Dev : Type} `{I2CBus Dev}.
Variable sizeof_ptr : nat.
Variable pgm_read_byte : list uint8_t → nat → uint8_t.

Lemma silent_ret {A} (x : A) : silent (mret x : M Dev A).
Proof. by intros w y w' [= _ <-]. Qed.

Lemma silent_lift {A} (o : option A) : silent (lift o : M Dev A).
Proof. intros w y w' E. by apply lift_inv in E as [_ ->]. Qed.

Lemma silent_bind {A B} (m : M Dev A) (f : A → M Dev B) :
  silent m → (∀ x, silent (f x)) → silent (m ≫= f).
Proof.
  intros Hm Hf w y w' E. apply bind_inv in E as (x & w1 & E1 & E2).
  apply Hm in E1 as ->. by apply Hf in E2.
Qed.

Lemma transmits_once_silent_l {A B} (m : M Dev A) (f : A → M Dev B) :
  silent m → (∀ x, transmits_once (f x)) → transmits_once (m ≫= f).
Proof.
  intros Hm Hf w y w' E. apply bind_inv in E as (x & w1 & E1 & E2).
  apply Hm in E1 as ->. by apply Hf in E2.
Qed.

Lemma transmits_once_silent_r {A B} (m : M Dev A) (f : A → M Dev B) :
  transmits_once m → (∀ x, silent (f x)) → transmits_once (m ≫= f).
Proof.
  intros Hm Hf w y w' E. apply bind_inv in E as (x & w1 & E1 & E2).
  apply Hf in E2 as ->. by apply Hm in E1.
Qed.

Lemma reads_once_silent_r {A B} (m : M Dev A) (f : A → M Dev B) :
  reads_once m → (∀ x, silent (f x)) → reads_once (m ≫= f).
Proof.
  intros Hm Hf w y w' E. apply bind_inv in E as (x & w1 & E1 & E2).
  apply Hf in E2 as ->. by apply Hm in E1.
Qed.

Lemma transmits_once_write_bytes input address length :
  transmits_once (write_bytes input address length : M Dev bool).
Proof.
  intros w b w'. rewrite write_bytes_pair. case_decide; [|done].
  intros [= _ <-]. rewrite after_transmission_world. by eexists _, _.
Qed.

Lemma reads_once_read_bytes output address length :
  reads_once (read_bytes output address length : M Dev (bool * list uint8_t)).
Proof.
  intros w r w' E. rewrite read_bytes_eq in E. unfold after_transmission in E.
  destruct (bus_write _ _ _) as [status d].
  exists [reg_addr address], status.
  destruct (Z.eqb_spec status 0) as [Hst|Hst].
  - unfold after_request in E. simpl in E. destruct (bus_read _ _ _) as [bytes d2].
    case_decide; [|done]. injection E as _ <-. right. split; [done|].
    eexists _, _. simpl. by rewrite <- app_assoc.
  - injection E as _ <-. left. by split.
Qed.

Lemma transmits_once_typed_write k object :
  transmits_once (typed_write k object : M Dev bool).
Proof.
  destruct k; cbn [typed_write];
    try apply transmits_once_write_bytes.
  unfold write_co2_thresholds_t.
  apply transmits_once_silent_l; [apply silent_lift|]. intros t1.
  apply transmits_once_silent_l; [apply silent_lift|]. intros t2.
  apply transmits_once_write_bytes.
Qed.

Lemma reads_once_typed_read k object :
  reads_once (typed_read k object : M Dev (bool * list uint8_t)).
Proof.
  destruct k; cbn [typed_read];
    try apply reads_once_read_bytes.
  - unfold read_co2_thresholds.
    apply reads_once_silent_r; [apply reads_once_read_bytes|]. intros [success t].
    apply silent_bind; [apply silent_lift|]. intros t1.
    apply silent_bind; [apply silent_lift|]. intros t2. apply silent_ret.
  - unfold read_eTVOC_data.
    apply reads_once_silent_r; [apply reads_once_read_bytes|]. intros [success t].
    apply silent_ret.
Qed.

(** X20: a call of any public operation other than [begin] and
    [comms_check] makes exactly one transmission and never retries or
    delays.  An operation that writes a register makes that transmission
    and nothing else; it never requests bytes from the device.  An operation
    that reads a register makes the transmission first and then, only when
    the transmission was acknowledged, exactly one request; when it was not
    acknowledged, it makes no request. *)
Theorem one_transaction_per_call (op : Op) (w : World Dev) r w' :
  run sizeof_ptr pgm_read_byte op w = Some (r, w') →
  if is_write_call op then
    ∃ payload status, trace w' = trace w ++ [EvWrite (_device_address w) payload status]
  else if is_read_call op then
    ∃ payload status,
      (status ≠ 0
       ∧ trace w' = trace w ++ [EvWrite (_device_address w) payload status])
      ∨ (status = 0
         ∧ ∃ quantity delivered,
             trace w' = trace w ++
               [EvWrite (_device_address w) payload status;
                EvRequest (_device_address w) quantity delivered])
  else True.
Proof.
  pose proof transmits_once_typed_write as Hwrite.
  pose proof reads_once_typed_read as Hread.
  pose proof transmits_once_write_bytes as Hraw.
  intros E. destruct op; cbn [is_write_call is_read_call]; try done;
    cbn [run] in E; revert E.
  - apply (reads_once_silent_r (typed_read k object)); [done|].
    intros [success object']. apply silent_ret.
  - apply (transmits_once_silent_r (typed_write k object)); [done|].
    intros b. apply silent_ret.
  - apply transmits_once_silent_r; [|intros b; apply silent_ret].
    unfold write_environmental_data, write_environmental_data_t.
    repeat (apply transmits_once_silent_l; [apply silent_lift|]; intros ?).
    apply Hraw.
  - apply transmits_once_silent_r; [|intros b; apply silent_ret].
    apply (Hwrite WrCo2Thresholds).
  - apply reads_once_silent_r; [|intros b; apply silent_ret].
    unfold get_eCO2. apply reads_once_silent_r; [apply (Hread RdECO2Data)|].
    intros [success data']. apply silent_bind; [apply silent_lift|].
    intros v. apply silent_ret.
  - apply reads_once_silent_r; [|intros b; apply silent_ret].
    unfold get_eTVOC. apply reads_once_silent_r; [apply (Hread RdETVOCData)|].
    intros [success data']. apply silent_bind; [apply silent_lift|].
    intros v. apply silent_ret.
  - apply transmits_once_silent_r; [|intros b; apply silent_ret]. apply Hraw.
  - apply transmits_once_silent_r; [|intros b; apply silent_ret]. apply Hraw.
  - apply transmits_once_silent_r; [|intros b; apply silent_ret]. apply Hraw.
  - apply transmits_once_silent_r; [|intros b; apply silent_ret]. apply Hraw.
Qed.

End OneTransaction.

Lemma one_transaction_per_call_witness :
  let w := new_world CCS811_DEFAULT_I2C_ADDRESS
             {| statuses := [0]; replies := [[Byte.x98]] |} in
  let w' :=
    {| _device_address := Byte.x5a;
       Wire := {| txAddress := Byte.x5a; txBuffer := []; rxBuffer := [] |};
       device := {| statuses := []; replies := [] |};
       trace := [EvWrite Byte.x5a [Byte.x00] 0; EvRequest Byte.x5a 1 [Byte.x98]] |} in
  ∃ payload status,
    (status ≠ 0
     ∧ trace w' = trace w ++ [EvWrite (_device_address w) payload status])
    ∨ (status = 0
       ∧ ∃ quantity delivered,
           trace w' = trace w ++
             [EvWrite (_device_address w) payload status;
              EvRequest (_device_address w) quantity delivered]).
Proof.
  intros w w'.
  assert (Hrun : run 4 flat_read_byte (OpRead RdStatus [Byte.x00]) w
                 = Some (RData true [Byte.x98], w'))
    by (vm_compute; reflexivity).
  exact (one_transaction_per_call 4 flat_read_byte (OpRead RdStatus [Byte.x00]) w
           (RData true [Byte.x98]) w' Hrun).
Defined.

(** ** Start-up check over a transport that never answers *)

Section DeadTransport.
Context {Dev : Type} `{I2CBus Dev}.

(** [dead] holds of the states of a transport in which no transmission is
    acknowledged, now or after any number of further attempts. *)
Variable dead : Dev → Prop.
Hypothesis dead_refuses : ∀ d a payload, dead d → (bus_write a payload d).1 ≠ 0.
Hypothesis dead_stays : ∀ d a payload, dead d → dead (bus_write a payload d).2.

Lemma comms_check_loop_dead todo : ∀ (x : uint8_t) (w : World Dev),
  dead (device w) →
  ∃ w' (refusals : list Z),
    comms_check_loop todo false [x] w = Some ([x], w')
    ∧ length refusals = todo
    ∧ Forall (λ status, status ≠ 0) refusals
    ∧ trace w' = trace w ++
        concat ((λ status, [EvWrite (_device_address w) [Byte.x20] status; EvDelay 10])
                  <$> refusals).
Proof.
  induction todo as [|todo IH]; intros x w Hdead; simpl.
  - exists w, []. simpl. by rewrite app_nil_r.
  - unfold read_hardware_id.
    erewrite bind_Some; last first.
    { apply read_bytes_not_acknowledged. by apply dead_refuses. }
    rewrite after_transmission_world. cbn iota beta. munfold. unfold delay at 1. simpl.
    edestruct (IH x) as (w' & refusals & Hrun & Hlen & Hnz & Ht); last first.
    { exists w', ((bus_write (_device_address w) [Byte.x20] (device w)).1 :: refusals).
      split; [exact Hrun|]. split; [simpl; by rewrite Hlen|]. split.
      - constructor; [by apply dead_refuses|done].
      - rewrite Ht. simpl. by rewrite <- !app_assoc. }
    simpl. by apply dead_stays.
Qed.

(** X21: over a transport that never acknowledges a transmission,
    [comms_check()] makes exactly eleven transmissions of the hardware-ID
    register address and ten delays of 10 ms, writes nothing to its local
    [id], and returns whether the content that unassigned local had is
    0x81. *)
Theorem comms_check_dead_transport (id0 : uint8_t) (w : World Dev) :
  dead (device w) →
  ∃ w' (first : Z) (refusals : list Z),
    comms_check [id0] w = Some (Byte.eqb id0 CCS811_HARDWARE_ID, w')
    ∧ first ≠ 0
    ∧ length refusals = 10%nat
    ∧ Forall (λ status, status ≠ 0) refusals
    ∧ trace w' = trace w ++
        EvWrite (_device_address w) [Byte.x20] first
        :: concat ((λ status, [EvWrite (_device_address w) [Byte.x20] status; EvDelay 10])
                     <$> refusals).
Proof.
  intros Hdead. unfold comms_check, read_hardware_id.
  erewrite bind_Some; last first.
  { apply read_bytes_not_acknowledged. by apply dead_refuses. }
  rewrite after_transmission_world. cbn iota beta.
  edestruct (comms_check_loop_dead 10 id0) as (w' & refusals & Hrun & Hlen & Hnz & Ht);
    last first.
  { erewrite bind_Some by exact Hrun.
    exists w', (bus_write (_device_address w) [Byte.x20] (device w)).1, refusals.
    split; [reflexivity|]. split; [by apply dead_refuses|]. split; [done|].
    split; [done|]. rewrite Ht. simpl. by rewrite <- !app_assoc. }
  simpl. by apply dead_stays.
Qed.

End DeadTransport.

Lemma used_up_script_refuses (d : Script) a payload :
  statuses d = [] → (bus_write a payload d).1 ≠ 0.
Proof. intros Hs. simpl. rewrite Hs. simpl. lia. Qed.

Lemma used_up_script_stays (d : Script) a payload :
  statuses d = [] → statuses (bus_write a payload d).2 = [].
Proof. intros Hs. simpl. by rewrite Hs. Qed.

Lemma comms_check_dead_transport_witness :
  let w := new_world CCS811_DEFAULT_I2C_ADDRESS {| statuses := []; replies := [] |} in
  ∃ w' (first : Z) (refusals : list Z),
    comms_check [Byte.x00] w = Some (Byte.eqb Byte.x00 CCS811_HARDWARE_ID, w')
    ∧ first ≠ 0
    ∧ length refusals = 10%nat
    ∧ Forall (λ status, status ≠ 0) refusals
    ∧ trace w' = trace w ++
        EvWrite (_device_address w) [Byte.x20] first
        :: concat ((λ status, [EvWrite (_device_address w) [Byte.x20] status; EvDelay 10])
                     <$> refusals).
Proof.
  intros w.
  exact (comms_check_dead_transport (λ d : Script, statuses d = [])
           used_up_script_refuses used_up_script_stays Byte.x00 w eq_refl).
Defined.
